(** * DataFetcher: a shallow embedding of [utils/data_fetcher.py]

    The module is a facade over a market-data provider (yfinance) with a
    little post-processing done by pandas.  The embedding keeps the shape of
    the Python code:

    - numbers are rationals ([Q]); a NaN cell of a frame is [None];
    - [try: ... except Exception as e: print(...); return ...] is a small
      exception monad threaded through the standard output;
    - the provider is an interface ([Provider]) whose calls either raise or
      return a value;
    - the clock read by [datetime.now()] is an argument. *)

From Stdlib Require Import ZArith QArith Qabs List Lia Sorted Permutation.
From stdpp Require Import base option strings gmap.
Import ListNotations.

Local Open Scope string_scope.
Local Open Scope Z_scope.

(** ** Exceptions and standard output *)

(** The subclasses of [Exception] that the modelled code can meet. *)
Inductive exn : Type :=
| TypeError (msg : string)
| ZeroDivisionError
| ProviderError (msg : string).

(** [str(e)], as interpolated in the messages. *)
Definition exn_str (e : exn) : string :=
  match e with
  | TypeError msg => msg
  | ZeroDivisionError => "division by zero"
  | ProviderError msg => msg
  end.

(** A computation reads the lines printed so far and returns either a raised
    exception or a value, together with the lines printed after it. *)
Definition M (A : Type) : Type := list string -> (exn + A) * list string.

Definition ret {A} (a : A) : M A := fun out => (inr a, out).

Definition bind {A B} (c : M A) (k : A -> M B) : M B :=
  fun out =>
    match c out with
    | (inl e, out') => (inl e, out')
    | (inr a, out') => k a out'
    end.

Definition raise {A} (e : exn) : M A := fun out => (inl e, out).

(** A call that may raise and prints nothing. *)
Definition lift {A} (r : exn + A) : M A := fun out => (r, out).

Definition print (line : string) : M unit := fun out => (inr tt, (out ++ [line])%list).

(** [try: body  except Exception as e: handler e] *)
Definition try_except {A} (body : M A) (handler : exn -> M A) : M A :=
  fun out =>
    match body out with
    | (inl e, out') => handler e out'
    | (inr a, out') => (inr a, out')
    end.

(** The monad's operations under stdpp's [x ← c; k] and [c;; k]. *)
#[export] Instance M_ret : MRet M := @ret.
#[export] Instance M_bind : MBind M := fun A B k c => bind c k.

(** ** Frames of price bars (pandas) *)

(** A cell of a numeric column; [None] is NaN. *)
Definition cell : Type := option Q.

(** One row: the index label and the five price columns. *)
Record Bar : Type := mkBar {
  ts : Z;          (* index label; for a DatetimeIndex, seconds of wall-clock time *)
  Open : cell;
  High : cell;
  Low : cell;
  Close : cell;
  Volume : cell
}.

Inductive index_kind : Type := DatetimeIndex | PlainIndex.

Record DataFrame : Type := mkDataFrame {
  df_index : index_kind;
  df_rows : list Bar
}.

(** [df.empty] *)
Definition df_empty (df : DataFrame) : bool :=
  match df_rows df with [] => true | _ :: _ => false end.

Definition is_nan (c : cell) : bool :=
  match c with None => true | Some _ => false end.

Definition row_has_nan (b : Bar) : bool :=
  is_nan (Open b) || is_nan (High b) || is_nan (Low b) || is_nan (Close b)
  || is_nan (Volume b).

(** [df.dropna()]: the rows without any NaN, in order. *)
Definition dropna (df : DataFrame) : DataFrame :=
  mkDataFrame (df_index df)
              (List.filter (fun b => negb (row_has_nan b)) (df_rows df)).

(** *** Aggregations; all of them skip NaN, as pandas' do. *)

Definition valid (l : list cell) : list Q := omap id l.

Definition qmax (a b : Q) : Q := if Qle_bool a b then b else a.
Definition qmin (a b : Q) : Q := if Qle_bool b a then b else a.

(** ['first']: the first entry that is not NaN. *)
Definition agg_first (l : list cell) : cell := head (valid l).

(** ['last']: the last entry that is not NaN. *)
Definition agg_last (l : list cell) : cell := last (valid l).

(** ['max'] and ['min']: NaN when no entry is valid. *)
Definition agg_max (l : list cell) : cell :=
  match valid l with
  | [] => None
  | q :: t => Some (fold_left qmax t q)
  end.

Definition agg_min (l : list cell) : cell :=
  match valid l with
  | [] => None
  | q :: t => Some (fold_left qmin t q)
  end.

(** ['sum']: 0 when no entry is valid. *)
Definition agg_sum (l : list cell) : cell :=
  Some (fold_left Qplus (valid l) 0%Q).

(** *** [resample('4H')] *)

Definition FOUR_HOURS : Z := 14400.
Definition DAY : Z := 86400.

(** The resampler orders the rows by index label first (a stable sort). *)
Fixpoint insert_by_ts (b : Bar) (l : list Bar) : list Bar :=
  match l with
  | [] => [b]
  | x :: t => if ts b <=? ts x then b :: l else x :: insert_by_ts b t
  end.

Definition sort_by_ts (l : list Bar) : list Bar := fold_right insert_by_ts [] l.

(** Midnight of the day of [t]: the default origin (['start_day']). *)
Definition start_day (t : Z) : Z := DAY * (t / DAY).

(** Left edge of the 4-hour bin of [t], counted from [origin]. *)
Definition bin_of (origin t : Z) : Z :=
  origin + FOUR_HOURS * ((t - origin) / FOUR_HOURS).

(** The rows of the half-open bin [[b, b + 4h)]. *)
Definition in_bin (b : Z) (r : Bar) : bool :=
  (b <=? ts r) && (ts r <? b + FOUR_HOURS).

(** [.agg({'Open': 'first', 'High': 'max', 'Low': 'min', 'Close': 'last',
          'Volume': 'sum'})] on one bin, labelled by its left edge. *)
Definition agg_bin (sorted : list Bar) (b : Z) : Bar :=
  let members := List.filter (in_bin b) sorted in
  mkBar b
        (agg_first (map Open members))
        (agg_max (map High members))
        (agg_min (map Low members))
        (agg_last (map Close members))
        (agg_sum (map Volume members)).

(** Every bin from the one of the earliest row to the one of the latest row
    gets a row, the bins without members too. *)
Definition resample_4H_agg (rows : list Bar) : list Bar :=
  match sort_by_ts rows with
  | [] => []
  | first :: rest =>
      let sorted := first :: rest in
      let origin := start_day (ts first) in
      let lo := bin_of origin (ts first) in
      let hi := bin_of origin (ts (List.last rest first)) in
      let n := Z.to_nat ((hi - lo) / FOUR_HOURS + 1) in
      map (fun i => agg_bin sorted (lo + FOUR_HOURS * Z.of_nat i)) (seq 0 n)
  end.

(** [hourly_data.resample('4H').agg({...})]: resampling needs a datetime-like
    index and raises [TypeError] on any other. *)
Definition resample_agg (df : DataFrame) : exn + DataFrame :=
  match df_index df with
  | DatetimeIndex => inr (mkDataFrame DatetimeIndex (resample_4H_agg (df_rows df)))
  | PlainIndex =>
      inl (TypeError "Only valid with DatetimeIndex, TimedeltaIndex or PeriodIndex, but got an instance of 'Index'")
  end.

(** ** The provider (yfinance) *)

(** [yf.Ticker(symbol).history(period=, interval=)] and
    [yf.Ticker(symbol).info]; the quote is the numeric part of the [info]
    dictionary. *)
Record Provider : Type := mkProvider {
  history : string -> string -> string -> exn + DataFrame;
  info : string -> exn + gmap string Q
}.

(** ** Python helpers *)

(** [d.get(key, dflt)] *)
Definition dict_get (d : gmap string Q) (key : string) (dflt : Q) : Q :=
  default dflt (d !! key).

(** Truth value of [d.get(key)]: false for a missing key and for zero. *)
Definition truthy (v : option Q) : bool :=
  match v with
  | None => false
  | Some q => negb (Qeq_bool q 0)
  end.

(** [a / b] *)
Definition truediv (a b : Q) : exn + Q :=
  if Qeq_bool b 0 then inl ZeroDivisionError else inr (a / b)%Q.

(** ** DataFetcher *)

Definition interval_map : gmap string string :=
  {[ "15m" := "15m"; "1h" := "1h"; "4h" := "1h"; "1d" := "1d" ]}.

Definition _resample_to_4h (hourly_data : DataFrame) : M DataFrame :=
  try_except
    (resampled ← lift (resample_agg hourly_data);
     ret (dropna resampled))
    (fun e =>
       print ("Error resampling to 4h: " +:+ exn_str e);;
       ret hourly_data).

Definition get_stock_data (yf : Provider) (symbol period interval : string)
  : M (option DataFrame) :=
  try_except
    (let yf_interval := default interval (interval_map !! interval) in
     data ← lift (history yf symbol period yf_interval);
     if df_empty data then ret None else
     data ← (if String.eqb interval "4h" && String.eqb yf_interval "1h"
             then _resample_to_4h data else ret data);
     ret (Some (dropna data)))
    (fun e =>
       print ("Error fetching data for " +:+ symbol +:+ ": " +:+ exn_str e);;
       ret None).

Record Snapshot : Type := mkSnapshot {
  symbol_of : string;
  current_price : Q;
  previous_close : Q;
  change : Q;
  change_percent : Q;
  volume : Q;
  market_cap : Q
}.

Definition get_latest_price (yf : Provider) (symbol : string) : M (option Snapshot) :=
  try_except
    (info ← lift (info yf symbol);
     let current := dict_get info "currentPrice" 0 in
     let previous := dict_get info "previousClose" 0 in
     percent ← (if truthy (info !! "previousClose")
                then q ← lift (truediv (current - previous)
                                       (dict_get info "previousClose" 1));
                     ret (q * 100)%Q
                else ret 0%Q);
     ret (Some (mkSnapshot symbol current previous (current - previous) percent
                           (dict_get info "volume" 0)
                           (dict_get info "marketCap" 0))))
    (fun e =>
       print ("Error fetching latest price for " +:+ symbol +:+ ": " +:+ exn_str e);;
       ret None).

Definition validate_symbol (yf : Provider) (symbol : string) : M bool :=
  try_except
    (data ← lift (history yf symbol "5d" "1d");
     ret (negb (df_empty data)))
    (fun e =>
       print ("Error validating symbol " +:+ symbol +:+ ": " +:+ exn_str e);;
       ret false).

(** ** The clock ([datetime]) *)

(** A naive [datetime]: the local wall-clock time, without time zone. *)
Record datetime : Type := mkDatetime {
  year : Z;
  month : Z;
  day : Z;
  hour : Z;
  minute : Z;
  second : Z;
  microsecond : Z
}.

Definition _is_leap (y : Z) : bool :=
  (y mod 4 =? 0) && (negb (y mod 100 =? 0) || (y mod 400 =? 0)).

Definition _days_before_year (y : Z) : Z :=
  let y := y - 1 in
  y * 365 + y / 4 - y / 100 + y / 400.

Definition _DAYS_IN_MONTH : list Z :=
  [31; 28; 31; 30; 31; 30; 31; 31; 30; 31; 30; 31].

Definition _days_in_month (y m : Z) : Z :=
  if (m =? 2) && _is_leap y then 29
  else nth (Z.to_nat (m - 1)) _DAYS_IN_MONTH 0.

Definition _days_before_month (y m : Z) : Z :=
  fold_right Z.add 0 (firstn (Z.to_nat (m - 1)) _DAYS_IN_MONTH)
  + (if (2 <? m) && _is_leap y then 1 else 0).

Definition _ymd2ord (y m d : Z) : Z :=
  _days_before_year y + _days_before_month y m + d.

Definition toordinal (t : datetime) : Z := _ymd2ord (year t) (month t) (day t).

(** [t.weekday()]: Monday is 0 and Sunday is 6. *)
Definition weekday (t : datetime) : Z := (toordinal t + 6) mod 7.

(** [t.replace(hour=h, minute=mi, second=s, microsecond=us)] *)
Definition replace_time (t : datetime) (h mi s us : Z) : datetime :=
  mkDatetime (year t) (month t) (day t) h mi s us.

(** Comparison of naive datetimes: the fields as a tuple, lexicographically. *)
Fixpoint lex_compare (a b : list Z) : comparison :=
  match a, b with
  | x :: a', y :: b' =>
      match x ?= y with
      | Eq => lex_compare a' b'
      | c => c
      end
  | [], [] => Eq
  | [], _ :: _ => Lt
  | _ :: _, [] => Gt
  end.

Definition dt_fields (t : datetime) : list Z :=
  [year t; month t; day t; hour t; minute t; second t; microsecond t].

Definition dt_le (a b : datetime) : bool :=
  match lex_compare (dt_fields a) (dt_fields b) with
  | Gt => false
  | _ => true
  end.

(** [now] is what [datetime.now()] returns. *)
Definition check_market_hours (now : datetime) : M bool :=
  try_except
    (let market_open := replace_time now 9 15 0 0 in
     let market_close := replace_time now 15 30 0 0 in
     let is_weekday := weekday now <? 5 in
     let is_trading_hours := dt_le market_open now && dt_le now market_close in
     ret (is_weekday && is_trading_hours))
    (fun e =>
       print ("Error checking market hours: " +:+ exn_str e);;
       ret false).

(** A datetime that the [datetime] constructor accepts. *)
Definition valid_datetime (t : datetime) : Prop :=
  1 <= year t <= 9999 /\ 1 <= month t <= 12 /\
  1 <= day t <= _days_in_month (year t) (month t) /\
  0 <= hour t < 24 /\ 0 <= minute t < 60 /\ 0 <= second t < 60 /\
  0 <= microsecond t < 1000000.

(** Microseconds since local midnight. *)
Definition micros_of_day (t : datetime) : Z :=
  ((hour t * 60 + minute t) * 60 + second t) * 1000000 + microsecond t.

Inductive day_name : Type :=
  Monday | Tuesday | Wednesday | Thursday | Friday | Saturday | Sunday.

Definition day_name_of (t : datetime) : day_name :=
  nth (Z.to_nat (weekday t))
      [Monday; Tuesday; Wednesday; Thursday; Friday; Saturday; Sunday] Sunday.

Definition is_working_day (d : day_name) : bool :=
  match d with
  | Saturday | Sunday => false
  | _ => true
  end.

(** ** Sample inputs and the words of the specification *)

(** A provider that is down, and one that knows no symbol. *)
Definition yf_down : Provider :=
  mkProvider (fun _ _ _ => inl (ProviderError "connection refused"))
             (fun _ => inl (ProviderError "connection refused")).

Definition yf_no_data : Provider :=
  mkProvider (fun _ _ _ => inr (mkDataFrame DatetimeIndex []))
             (fun _ => inr ∅).

(** A frame whose index is not made of timestamps. *)
Definition unindexed_frame : DataFrame :=
  mkDataFrame PlainIndex
    [mkBar 0 (Some 1%Q) (Some 2%Q) (Some 1%Q) (Some 2%Q) (Some 10%Q);
     mkBar 1 (Some 2%Q) (Some 3%Q) (Some 2%Q) (Some 3%Q) (Some 20%Q)].

(** A provider with one daily bar for every symbol. *)
Definition yf_one_bar : Provider :=
  mkProvider
    (fun _ _ _ =>
       inr (mkDataFrame DatetimeIndex
              [mkBar 1704240000 (Some 100%Q) (Some 110%Q) (Some 95%Q)
                     (Some 105%Q) (Some 5000%Q)]))
    (fun _ => inr {[ "currentPrice" := 100%Q; "previousClose" := 90%Q ]}).

(** A quote whose previous close is zero. *)
Definition yf_zero_close : Provider :=
  mkProvider (fun _ _ _ => inr (mkDataFrame DatetimeIndex []))
             (fun _ => inr {[ "currentPrice" := 100%Q; "previousClose" := 0%Q ]}).

(** The same bar [c] seconds later. *)
Definition shift_bar (c : Z) (b : Bar) : Bar :=
  mkBar (ts b + c) (Open b) (High b) (Low b) (Close b) (Volume b).

(** The bar of hour [h] of day [d], with every column equal to [h + 1]. *)
Definition hourly_bar (d h : Z) : Bar :=
  let v := Some (inject_Z (h + 1)) in
  mkBar (d * DAY + 3600 * h) v v v v v.

(** Day [d] with one bar at every hour from 00:00 to 23:00 and the values
    1 to 24. *)
Definition one_day (d : Z) : DataFrame :=
  mkDataFrame DatetimeIndex (map (fun h => hourly_bar d (Z.of_nat h)) (seq 0 24)).

(** A binary operation on two cells that are both present. *)
Definition cell_lift (f : Q -> Q -> Q) (a b : cell) : cell :=
  match a, b with
  | Some x, Some y => Some (f x y)
  | _, _ => None
  end.

(** The aggregation rule in the words of the specification, for the bars
    [first :: others] of one bucket: the open of the first bar, the maximum
    of the highs, the minimum of the lows, the close of the last bar and the
    sum of the volumes. *)
Definition spec_bucket (label : Z) (first : Bar) (others : list Bar) : Bar :=
  mkBar label
        (Open first)
        (fold_left (cell_lift qmax) (map High others) (High first))
        (fold_left (cell_lift qmin) (map Low others) (Low first))
        (Close (List.last others first))
        (fold_left (cell_lift Qplus) (map Volume (first :: others)) (Some 0%Q)).

(** The four hourly bars of bucket [k] of day [d], and what the rule of the
    specification makes of them. *)
Definition hours_of_bucket (d k : Z) : list Bar :=
  [hourly_bar d (4 * k); hourly_bar d (4 * k + 1); hourly_bar d (4 * k + 2);
   hourly_bar d (4 * k + 3)].

Definition bucket_of_day (d k : Z) : Bar :=
  spec_bucket (d * DAY + FOUR_HOURS * k)
              (hourly_bar d (4 * k)) (tl (hours_of_bucket d k)).

(** A provider whose two hourly bars, at 09:15 and 10:15 of 3 January 2024,
    each miss one field: the first its close, the second its open. *)
Definition two_gapped_bars : DataFrame :=
  mkDataFrame DatetimeIndex
    [mkBar 1704273300 (Some 100%Q) (Some 110%Q) (Some 95%Q) None (Some 5000%Q);
     mkBar 1704276900 None (Some 120%Q) (Some 101%Q) (Some 115%Q) (Some 7000%Q)].

Definition yf_gapped : Provider :=
  mkProvider (fun _ _ _ => inr two_gapped_bars) (fun _ => inr ∅).

(** The four price columns; a volume that is missing everywhere sums to 0
    and is not missing in the bucket. *)
Definition price_columns : list (Bar -> cell) := [Open; High; Low; Close].

(** A provider whose only daily bar has no prices. *)
Definition yf_blank_bar : Provider :=
  mkProvider
    (fun _ _ _ =>
       inr (mkDataFrame DatetimeIndex [mkBar 1704240000 None None None None (Some 0%Q)]))
    (fun _ => inr ∅).

(** ** The rest of the facade *)

(** [_load_nse_stock_list]: the symbols, in the order of the source. *)
Definition _load_nse_stock_list : list string :=
  [
   "ADANIENT.NS"; "ADANIPORTS.NS"; "APOLLOHOSP.NS"; "ASIANPAINT.NS";
   "AXISBANK.NS"; "BAJAJ-AUTO.NS"; "BAJAJFINSV.NS"; "BAJFINANCE.NS";
   "BHARTIARTL.NS"; "BPCL.NS"; "BRITANNIA.NS"; "CIPLA.NS";
   "COALINDIA.NS"; "DIVISLAB.NS"; "DRREDDY.NS"; "EICHERMOT.NS";
   "GRASIM.NS"; "HCLTECH.NS"; "HDFCBANK.NS"; "HDFCLIFE.NS";
   "HEROMOTOCO.NS"; "HINDALCO.NS"; "HINDUNILVR.NS"; "ICICIBANK.NS";
   "ICICIGI.NS"; "ICICIPRULI.NS"; "INDUSINDBK.NS"; "INFY.NS";
   "ITC.NS"; "JSWSTEEL.NS"; "KOTAKBANK.NS"; "LT.NS";
   "LTIM.NS"; "M&M.NS"; "MARUTI.NS"; "NESTLEIND.NS";
   "NTPC.NS"; "ONGC.NS"; "POWERGRID.NS"; "RELIANCE.NS";
   "SBILIFE.NS"; "SBIN.NS"; "SUNPHARMA.NS"; "TATACONSUM.NS";
   "TATAMOTORS.NS"; "TATASTEEL.NS"; "TCS.NS"; "TECHM.NS";
   "TITAN.NS"; "ULTRACEMCO.NS"; "UPL.NS"; "WIPRO.NS";
   "DLF.NS"; "SHRIRAMFIN.NS"; "CHOLAFIN.NS"; "BAJAJHLDNG.NS";
   "JINDALSTEL.NS"; "RECLTD.NS"; "ETERNAL.NS"; "PFC.NS";
   "LODHA.NS"; "SWIGGY.NS"; "JIOFIN.NS"; "ADANIPOWER.NS";
   "VBL.NS"; "BANKBARODA.NS"; "PNB.NS"; "MOTHERSON.NS";
   "DMART.NS"; "SIEMENS.NS"; "TATAPOWER.NS"; "JSWENERGY.NS";
   "ADANIGREEN.NS"; "NAUKRI.NS"; "ABB.NS"; "TRENT.NS";
   "HAVELLS.NS"; "IOC.NS"; "SHREECEM.NS"; "TVSMOTOR.NS";
   "AMBUJACEM.NS"; "VEDL.NS"; "BOSCHLTD.NS"; "INDHOTEL.NS";
   "GAIL.NS"; "GODREJCP.NS"; "IRFC.NS"; "ZYDUSLIFE.NS";
   "CANBK.NS"; "BEL.NS"; "DABUR.NS"; "HAL.NS";
   "CGPOWER.NS"
  ].

(** The object: its only attribute is the symbol list set by [__init__]. *)
Record DataFetcher : Type := mkDataFetcher {
  nse_stocks : list string
}.

Definition DataFetcher_init : DataFetcher := mkDataFetcher _load_nse_stock_list.

Definition get_nse_stock_list (self : DataFetcher) : list string := nse_stocks self.

(** [time.sleep(seconds)]: time is not modelled; the call returns and cannot
    raise an [Exception]. *)
Definition time_sleep (seconds : Q) : M unit := ret tt.

(** The [for symbol in symbols] loop of [get_multiple_stocks_data], with the
    dictionary built so far. *)
Fixpoint stocks_loop (yf : Provider) (period interval : string)
    (symbols : list string) (stock_data : gmap string DataFrame)
  : M (gmap string DataFrame) :=
  match symbols with
  | [] => ret stock_data
  | symbol :: rest =>
      stock_data ←
        try_except
          (data ← get_stock_data yf symbol period interval;
           let stock_data :=
             match data with
             | Some d => <[symbol := d]> stock_data
             | None => stock_data
             end in
           time_sleep (1 # 10);;
           ret stock_data)
          (fun e =>
             print ("Error fetching " +:+ symbol +:+ ": " +:+ exn_str e);;
             ret stock_data);
      stocks_loop yf period interval rest stock_data
  end.

Definition get_multiple_stocks_data (yf : Provider) (symbols : list string)
    (period interval : string) : M (gmap string DataFrame) :=
  stocks_loop yf period interval symbols ∅.

(** The series that [get_stock_data] returns for a symbol, if it returns
    one, and the lines it prints, both taken on an empty output. *)
Definition fetched (yf : Provider) (period interval symbol : string)
  : option DataFrame :=
  match fst (get_stock_data yf symbol period interval []) with
  | inr (Some d) => Some d
  | _ => None
  end.

Definition fetch_log (yf : Provider) (period interval symbol : string)
  : list string :=
  snd (get_stock_data yf symbol period interval []).

(** ** Orders and sums for the 4-hour candles *)

(** Bars in time order, and in strict time order. *)
Definition ts_le (a b : Bar) : Prop := ts a <= ts b.
Definition ts_lt (a b : Bar) : Prop := ts a < ts b.

(** The sum of a list of numbers, and the volume of a bar as ['sum'] reads
    it: a NaN counts for nothing. *)
Definition qsum (l : list Q) : Q := fold_right Qplus 0%Q l.

Definition volume_of (b : Bar) : Q :=
  match Volume b with Some v => v | None => 0%Q end.

(** Three complete hourly bars of 3 January 2024, at 09:15, 10:15 and
    13:15. *)
Definition session_bars : list Bar :=
  [mkBar 1704273300 (Some 100%Q) (Some 110%Q) (Some 95%Q) (Some 105%Q) (Some 5000%Q);
   mkBar 1704276900 (Some 105%Q) (Some 120%Q) (Some 101%Q) (Some 115%Q) (Some 7000%Q);
   mkBar 1704287700 (Some 115%Q) (Some 118%Q) (Some 90%Q) (Some 92%Q) (Some 4000%Q)].

(** Two complete candles of that day on the 4-hour grid, at 08:00 and at
    16:00. *)
Definition two_candles : list Bar :=
  [mkBar 1704268800 (Some 100%Q) (Some 120%Q) (Some 95%Q) (Some 115%Q) (Some 12000%Q);
   mkBar 1704297600 (Some 115%Q) (Some 118%Q) (Some 90%Q) (Some 92%Q) (Some 4000%Q)].

(** * Properties *)

(** Unfolds the monad's operations, so that a computation reduces to a match
    on what the provider or pandas returned. *)
Ltac run_py :=
  unfold try_except, mbind, M_bind, bind, mret, M_ret, ret, lift, print, raise;
  simpl.

(** ** Fetching a series *)

(** The interval asked from the provider. *)
Lemma yf_interval_4h : default "4h" (interval_map !! "4h") = "1h".
Proof. reflexivity. Qed.

(** [_resample_to_4h] never raises: it returns either the cleaned aggregation
    or, after printing the error, its argument. *)
Lemma _resample_to_4h_total (df : DataFrame) (out : list string) :
  (exists r, resample_agg df = inr r /\
             _resample_to_4h df out = (inr (dropna r), out)) \/
  (exists e, resample_agg df = inl e /\
             _resample_to_4h df out =
               (inr df, (out ++ ["Error resampling to 4h: " +:+ exn_str e])%list)).
Proof.
  unfold _resample_to_4h. run_py.
  destruct (resample_agg df) as [e | r]; [right | left]; eauto.
Qed.

(** C1: [get_stock_data] returns [None] when the provider raises, after
    printing the error and without raising itself, and returns [None] when the
    provider returns a frame without rows. *)
Theorem get_stock_data_absent (yf : Provider) (symbol period interval : string)
    (out : list string) :
  (forall e,
      history yf symbol period (default interval (interval_map !! interval)) = inl e ->
      get_stock_data yf symbol period interval out =
        (inr None,
         (out ++ ["Error fetching data for " +:+ symbol +:+ ": " +:+ exn_str e])%list)) /\
  (forall df,
      history yf symbol period (default interval (interval_map !! interval)) = inr df ->
      df_rows df = [] ->
      get_stock_data yf symbol period interval out = (inr None, out)).
Proof.
  split.
  - intros e He. unfold get_stock_data. run_py. rewrite He. reflexivity.
  - intros df Hdf Hrows. unfold get_stock_data. run_py. rewrite Hdf.
    unfold df_empty. rewrite Hrows. reflexivity.
Qed.

Lemma get_stock_data_absent_witness :
  get_stock_data yf_down "TCS.NS" "60d" "1d" [] =
    (inr None, ["Error fetching data for TCS.NS: connection refused"]) /\
  get_stock_data yf_no_data "TCS.NS" "60d" "1d" [] = (inr None, []).
Proof.
  split.
  - apply (proj1 (get_stock_data_absent yf_down "TCS.NS" "60d" "1d" [])
                 (ProviderError "connection refused")).
    reflexivity.
  - apply (proj2 (get_stock_data_absent yf_no_data "TCS.NS" "60d" "1d" [])
                 (mkDataFrame DatetimeIndex [])); reflexivity.
Defined.

(** ** Resampling *)

(** C8: when the aggregation raises, [_resample_to_4h] prints the error and
    returns the very frame it was given. *)
Theorem _resample_to_4h_failure (hourly_data : DataFrame) (e : exn)
    (out : list string) :
  resample_agg hourly_data = inl e ->
  _resample_to_4h hourly_data out =
    (inr hourly_data, (out ++ ["Error resampling to 4h: " +:+ exn_str e])%list).
Proof.
  intros He. unfold _resample_to_4h. run_py. rewrite He. reflexivity.
Qed.

Lemma _resample_to_4h_failure_witness :
  _resample_to_4h unindexed_frame [] =
    (inr unindexed_frame,
     ["Error resampling to 4h: Only valid with DatetimeIndex, TimedeltaIndex or PeriodIndex, but got an instance of 'Index'"]).
Proof.
  apply (_resample_to_4h_failure unindexed_frame
           (TypeError "Only valid with DatetimeIndex, TimedeltaIndex or PeriodIndex, but got an instance of 'Index'")
           []).
  reflexivity.
Defined.

(** C9: on a frame without rows [_resample_to_4h] returns a frame without
    rows and does not raise, whatever the index of the frame is. *)
Theorem _resample_to_4h_empty (idx : index_kind) (out : list string) :
  exists r out',
    _resample_to_4h (mkDataFrame idx []) out = (inr r, out') /\ df_rows r = [].
Proof.
  destruct idx.
  - exists (mkDataFrame DatetimeIndex []), out. split; reflexivity.
  - eexists _, _. split; reflexivity.
Qed.

(** ** Validating a symbol *)

(** C7: [validate_symbol] never raises; it answers [True] exactly when the
    provider returns a frame with at least one bar for the last five days, and
    [False] on a frame without rows and on a provider error. *)
Theorem validate_symbol_spec (yf : Provider) (symbol : string) (out : list string) :
  (exists b out', validate_symbol yf symbol out = (inr b, out')) /\
  (fst (validate_symbol yf symbol out) = inr true <->
   exists df, history yf symbol "5d" "1d" = inr df /\ df_rows df <> []) /\
  (forall df, history yf symbol "5d" "1d" = inr df -> df_rows df = [] ->
              validate_symbol yf symbol out = (inr false, out)) /\
  (forall e, history yf symbol "5d" "1d" = inl e ->
             validate_symbol yf symbol out =
               (inr false,
                (out ++ ["Error validating symbol " +:+ symbol +:+ ": " +:+ exn_str e])%list)).
Proof.
  unfold validate_symbol. run_py.
  destruct (history yf symbol "5d" "1d") as [e | df] eqn:Hh; simpl.
  - split; [eauto |]. split; [| split].
    + split; [discriminate | intros (df & Hdf & _); discriminate].
    + intros df Hdf; discriminate.
    + intros e' He'. injection He' as <-. reflexivity.
  - split; [eauto |]. split; [| split].
    + unfold df_empty. destruct (df_rows df) eqn:Hr; simpl.
      * split; [discriminate |]. intros (df' & Hdf' & Hne).
        injection Hdf' as <-. congruence.
      * split; [| reflexivity]. intros _. exists df. split; congruence.
    + intros df' Hdf' Hr. injection Hdf' as <-. unfold df_empty.
      rewrite Hr. reflexivity.
    + intros e He; discriminate.
Qed.

Lemma validate_symbol_spec_witness :
  fst (validate_symbol yf_one_bar "TCS.NS" []) = inr true /\
  validate_symbol yf_no_data "NOPE.NS" [] = (inr false, []) /\
  validate_symbol yf_down "TCS.NS" [] =
    (inr false, ["Error validating symbol TCS.NS: connection refused"]).
Proof.
  split; [| split].
  - apply (proj1 (proj2 (validate_symbol_spec yf_one_bar "TCS.NS" []))).
    eexists. split; [reflexivity | discriminate].
  - apply (proj1 (proj2 (proj2 (validate_symbol_spec yf_no_data "NOPE.NS" [])))
                 (mkDataFrame DatetimeIndex [])); reflexivity.
  - apply (proj2 (proj2 (proj2 (validate_symbol_spec yf_down "TCS.NS" [])))
                 (ProviderError "connection refused")).
    reflexivity.
Defined.

(** ** The latest price *)

(** C3: for a quote that has both [currentPrice] and [previousClose],
    [get_latest_price] returns a snapshot with the change and the change in
    percent of the previous close ([x / 0] is [0] in [Q], which is also what
    the code answers for a previous close of zero); the other numeric
    fields default to 0.  For 100 against 90 the change is 10 and the change
    in percent is 11.111 up to a thousandth. *)
Theorem get_latest_price_change (yf : Provider) (symbol : string)
    (out : list string) (quote : gmap string Q) (c p : Q) :
  info yf symbol = inr quote ->
  quote !! "currentPrice" = Some c ->
  quote !! "previousClose" = Some p ->
  exists snap,
    get_latest_price yf symbol out = (inr (Some snap), out) /\
    symbol_of snap = symbol /\
    current_price snap = c /\
    previous_close snap = p /\
    change snap = (c - p)%Q /\
    (change_percent snap == (c - p) / p * 100)%Q /\
    volume snap = dict_get quote "volume" 0 /\
    market_cap snap = dict_get quote "marketCap" 0 /\
    (c = 100%Q -> p = 90%Q ->
     (change snap == 10)%Q /\
     (Qabs (change_percent snap - (11111 # 1000)) < 1 # 1000)%Q).
Proof.
  intros Hinfo Hc Hp. unfold get_latest_price. run_py. rewrite Hinfo. simpl.
  unfold dict_get, truediv. rewrite Hc, Hp. simpl.
  destruct (Qeq_bool p 0) eqn:Hz; simpl.
  - eexists. split; [reflexivity |]. simpl.
    repeat (split; [reflexivity |]).
    split.
    + apply Qeq_bool_iff in Hz. rewrite Hz. unfold Qdiv.
      change (/ 0)%Q with 0%Q. ring.
    + repeat (split; [reflexivity |]).
      intros -> ->. discriminate Hz.
  - eexists. split; [reflexivity |]. simpl.
    repeat (split; [reflexivity |]).
    intros -> ->. split; reflexivity.
Qed.

Lemma get_latest_price_change_witness :
  exists snap,
    get_latest_price yf_one_bar "TCS.NS" [] = (inr (Some snap), []) /\
    (change snap == 10)%Q /\
    (Qabs (change_percent snap - (11111 # 1000)) < 1 # 1000)%Q.
Proof.
  destruct (get_latest_price_change yf_one_bar "TCS.NS" []
              {[ "currentPrice" := 100%Q; "previousClose" := 90%Q ]} 100 90
              eq_refl eq_refl eq_refl)
    as (snap & Hrun & _ & _ & _ & _ & _ & _ & _ & Hex).
  exists snap. split; [exact Hrun |]. exact (Hex eq_refl eq_refl).
Defined.

(** C6: whatever the quote, [get_latest_price] returns a snapshot and prints
    nothing, so the division never raises; the change in percent is 0 when
    [previousClose] is missing or zero, and the quotient is taken only when
    it is present and not zero. *)
Theorem get_latest_price_no_zero_division (yf : Provider) (symbol : string)
    (out : list string) (quote : gmap string Q) :
  info yf symbol = inr quote ->
  exists snap,
    get_latest_price yf symbol out = (inr (Some snap), out) /\
    ((quote !! "previousClose" = None \/
      exists p, quote !! "previousClose" = Some p /\ (p == 0)%Q) ->
     change_percent snap = 0%Q) /\
    (forall p, quote !! "previousClose" = Some p -> ~ (p == 0)%Q ->
       truediv (dict_get quote "currentPrice" 0 - p) p
         = inr ((dict_get quote "currentPrice" 0 - p) / p)%Q /\
       change_percent snap
         = ((dict_get quote "currentPrice" 0 - p) / p * 100)%Q).
Proof.
  intros Hinfo. unfold get_latest_price. run_py. rewrite Hinfo. simpl.
  unfold dict_get, truediv.
  destruct (quote !! "previousClose") as [p |] eqn:Hp; simpl.
  - destruct (Qeq_bool p 0) eqn:Hz; simpl.
    + eexists. split; [reflexivity |]. simpl. split; [reflexivity |].
      intros p' Hp' Hnz. injection Hp' as <-.
      apply Qeq_bool_iff in Hz. contradiction.
    + eexists. split; [reflexivity |]. simpl. split.
      * intros [Hnone | (p' & Hp' & Hz')]; [discriminate |].
        injection Hp' as <-. apply Qeq_bool_iff in Hz'. congruence.
      * intros p' Hp' _. injection Hp' as <-. rewrite Hz. split; reflexivity.
  - eexists. split; [reflexivity |]. simpl. split; [reflexivity |].
    intros p Hp'. discriminate.
Qed.

Lemma get_latest_price_no_zero_division_witness :
  exists snap,
    get_latest_price yf_zero_close "TCS.NS" [] = (inr (Some snap), []) /\
    change_percent snap = 0%Q.
Proof.
  destruct (get_latest_price_no_zero_division yf_zero_close "TCS.NS" []
              {[ "currentPrice" := 100%Q; "previousClose" := 0%Q ]} eq_refl)
    as (snap & Hrun & Hzero & _).
  exists snap. split; [exact Hrun |].
  apply Hzero. right. exists 0%Q. split; reflexivity.
Defined.

(** ** Market hours *)

Lemma weekday_range (t : datetime) : 0 <= weekday t < 7.
Proof. unfold weekday. apply Z.mod_pos_bound. lia. Qed.

(** [weekday() < 5] says Monday to Friday. *)
Lemma weekday_working (t : datetime) :
  (weekday t <? 5) = is_working_day (day_name_of t).
Proof.
  unfold day_name_of. pose proof (weekday_range t) as Hr.
  remember (weekday t) as w eqn:Hw. clear Hw.
  assert (Hcases : w = 0 \/ w = 1 \/ w = 2 \/ w = 3 \/ w = 4 \/ w = 5 \/ w = 6)
    by lia.
  repeat (destruct Hcases as [-> | Hcases]; [reflexivity |]).
  subst w. reflexivity.
Qed.

(** Comparing with the same day at 09:15 and at 15:30 compares the time of
    day. *)
Lemma trading_hours_micros (t : datetime) :
  valid_datetime t ->
  dt_le (replace_time t 9 15 0 0) t && dt_le t (replace_time t 15 30 0 0) = true <->
  33300000000 <= micros_of_day t <= 55800000000.
Proof.
  intros (_ & _ & _ & Hh & Hm & Hs & Hus).
  unfold dt_le, dt_fields, replace_time, micros_of_day.
  cbn -[Z.compare Z.mul Z.add]. rewrite !Z.compare_refl.
  rewrite andb_true_iff.
  repeat match goal with
         | |- context [?a ?= ?b] => destruct (Z.compare_spec a b)
         end;
    (split;
     [ intros [Hopen Hclose]; first [discriminate Hopen | discriminate Hclose | lia]
     | intros; split; first [reflexivity | exfalso; lia] ]).
Qed.

(** C5: [check_market_hours] is true exactly when the local clock shows
    Monday to Friday and a time of day from 09:15 to 15:30; the clock is taken
    as it is.  It is false on Saturday 6 January 2024 at 10:00, true on
    Wednesday 3 January 2024 at 10:00 and false on that Wednesday at 16:00. *)
Theorem check_market_hours_spec :
  (forall (now : datetime) (out : list string),
      valid_datetime now ->
      exists b,
        check_market_hours now out = (inr b, out) /\
        (b = true <->
         is_working_day (day_name_of now) = true /\
         33300000000 <= micros_of_day now <= 55800000000)) /\
  (day_name_of (mkDatetime 2024 1 6 10 0 0 0) = Saturday /\
   check_market_hours (mkDatetime 2024 1 6 10 0 0 0) [] = (inr false, [])) /\
  (day_name_of (mkDatetime 2024 1 3 10 0 0 0) = Wednesday /\
   check_market_hours (mkDatetime 2024 1 3 10 0 0 0) [] = (inr true, [])) /\
  (day_name_of (mkDatetime 2024 1 3 16 0 0 0) = Wednesday /\
   check_market_hours (mkDatetime 2024 1 3 16 0 0 0) [] = (inr false, [])).
Proof.
  split; [| repeat split; reflexivity].
  intros now out Hvalid. unfold check_market_hours. run_py.
  eexists. split; [reflexivity |].
  rewrite andb_true_iff, weekday_working.
  rewrite (trading_hours_micros now Hvalid). reflexivity.
Qed.

Lemma check_market_hours_spec_witness :
  exists b,
    check_market_hours (mkDatetime 2024 1 3 9 15 0 0) [] = (inr b, []) /\
    (b = true <->
     is_working_day (day_name_of (mkDatetime 2024 1 3 9 15 0 0)) = true /\
     33300000000 <= micros_of_day (mkDatetime 2024 1 3 9 15 0 0) <= 55800000000).
Proof.
  apply (proj1 check_market_hours_spec (mkDatetime 2024 1 3 9 15 0 0) []).
  repeat split; vm_compute; (reflexivity || congruence).
Defined.

(** ** One day of hourly bars *)

Section Shift.
Variable c : Z.

Lemma insert_by_ts_shift (b : Bar) (l : list Bar) :
  insert_by_ts (shift_bar c b) (map (shift_bar c) l) =
  map (shift_bar c) (insert_by_ts b l).
Proof.
  induction l as [| x l IH]; [reflexivity |].
  cbn [map insert_by_ts shift_bar ts].
  replace (ts b + c <=? ts x + c) with (ts b <=? ts x)
    by (destruct (Z.leb_spec (ts b) (ts x)), (Z.leb_spec (ts b + c) (ts x + c));
        trivial; lia).
  destruct (ts b <=? ts x); [reflexivity |].
  cbn [map]. f_equal. exact IH.
Qed.

Lemma sort_by_ts_shift (l : list Bar) :
  sort_by_ts (map (shift_bar c) l) = map (shift_bar c) (sort_by_ts l).
Proof.
  unfold sort_by_ts. induction l as [| x l IH]; [reflexivity |].
  cbn [map fold_right]. rewrite IH. apply insert_by_ts_shift.
Qed.

Lemma last_shift (l : list Bar) (b : Bar) :
  List.last (map (shift_bar c) l) (shift_bar c b) = shift_bar c (List.last l b).
Proof.
  induction l as [| x l IH]; [reflexivity |].
  destruct l as [| y l]; [reflexivity |]. exact IH.
Qed.

Lemma filter_in_bin_shift (b : Z) (l : list Bar) :
  List.filter (in_bin (b + c)) (map (shift_bar c) l) =
  map (shift_bar c) (List.filter (in_bin b) l).
Proof.
  induction l as [| x l IH]; [reflexivity |].
  cbn [map List.filter].
  replace (in_bin (b + c) (shift_bar c x)) with (in_bin b x).
  - destruct (in_bin b x); cbn [map]; rewrite IH; reflexivity.
  - unfold in_bin, shift_bar. cbn [ts].
    destruct (Z.leb_spec b (ts x)), (Z.leb_spec (b + c) (ts x + c)),
      (Z.ltb_spec (ts x) (b + FOUR_HOURS)),
      (Z.ltb_spec (ts x + c) (b + c + FOUR_HOURS)); trivial; lia.
Qed.

Lemma column_shift (col : Bar -> cell) (l : list Bar) :
  (forall b, col (shift_bar c b) = col b) ->
  map col (map (shift_bar c) l) = map col l.
Proof.
  intros Hcol. rewrite map_map. apply map_ext. exact Hcol.
Qed.

Lemma agg_bin_shift (l : list Bar) (b : Z) :
  agg_bin (map (shift_bar c) l) (b + c) = shift_bar c (agg_bin l b).
Proof.
  unfold agg_bin. rewrite filter_in_bin_shift.
  rewrite !column_shift by reflexivity. reflexivity.
Qed.

Lemma bin_of_shift (origin t : Z) :
  bin_of (origin + c) (t + c) = bin_of origin t + c.
Proof.
  unfold bin_of. replace (t + c - (origin + c)) with (t - origin) by lia. lia.
Qed.

Lemma dropna_rows_shift (l : list Bar) :
  List.filter (fun b => negb (row_has_nan b)) (map (shift_bar c) l) =
  map (shift_bar c) (List.filter (fun b => negb (row_has_nan b)) l).
Proof.
  induction l as [| x l IH]; [reflexivity |].
  cbn [map List.filter]. change (row_has_nan (shift_bar c x)) with (row_has_nan x).
  destruct (row_has_nan x); cbn [negb map]; rewrite IH; reflexivity.
Qed.
End Shift.

Lemma start_day_shift (k t : Z) : start_day (t + DAY * k) = start_day t + DAY * k.
Proof.
  unfold start_day. rewrite (Z.mul_comm DAY k), Z.div_add by (unfold DAY; lia).
  lia.
Qed.

(** Moving every bar by whole days moves the buckets by as much: the bins
    are aligned to midnight. *)
Lemma resample_4H_agg_shift (k : Z) (rows : list Bar) :
  resample_4H_agg (map (shift_bar (DAY * k)) rows) =
  map (shift_bar (DAY * k)) (resample_4H_agg rows).
Proof.
  unfold resample_4H_agg. rewrite sort_by_ts_shift.
  destruct (sort_by_ts rows) as [| first rest]; [reflexivity |].
  cbn [map]. rewrite last_shift. cbn [shift_bar ts].
  rewrite start_day_shift, !bin_of_shift.
  replace (bin_of (start_day (ts first)) (ts (List.last rest first)) + DAY * k
           - (bin_of (start_day (ts first)) (ts first) + DAY * k))
    with (bin_of (start_day (ts first)) (ts (List.last rest first))
          - bin_of (start_day (ts first)) (ts first)) by lia.
  rewrite map_map. apply map_ext. intros i.
  change (shift_bar (DAY * k) first :: map (shift_bar (DAY * k)) rest)
    with (map (shift_bar (DAY * k)) (first :: rest)).
  rewrite <- agg_bin_shift. f_equal. lia.
Qed.

Lemma _resample_to_4h_datetime (rows : list Bar) (out : list string) :
  _resample_to_4h (mkDataFrame DatetimeIndex rows) out =
    (inr (dropna (mkDataFrame DatetimeIndex (resample_4H_agg rows))), out).
Proof. reflexivity. Qed.

Lemma one_day_shift (d : Z) :
  df_rows (one_day d) = map (shift_bar (DAY * d)) (df_rows (one_day 0)).
Proof.
  unfold one_day. cbn [df_rows]. rewrite map_map. apply map_ext. intros h.
  unfold hourly_bar, shift_bar. cbn [ts Open High Low Close Volume].
  f_equal. lia.
Qed.

(** C2: for a day with a bar at every hour and the values 1 to 24,
    [_resample_to_4h] returns six buckets, labelled 00:00, 04:00, ..., 20:00
    of that day; the bars of bucket [k] are the hours 4k to 4k+3, and the
    bucket has the open of its first hour, the maximum of its four highs, the
    minimum of its four lows, the close of its last hour and the sum of its
    four volumes, that is 4k+1, 4k+4, 4k+1, 4k+4 and 16k+10. *)
Theorem _resample_to_4h_one_day (d : Z) (out : list string) :
  exists buckets,
    _resample_to_4h (one_day d) out = (inr (mkDataFrame DatetimeIndex buckets), out) /\
    length buckets = 6%nat /\
    Forall (fun k => List.filter (in_bin (d * DAY + FOUR_HOURS * k))
                                 (df_rows (one_day d)) = hours_of_bucket d k)
           [0; 1; 2; 3; 4; 5] /\
    buckets = map (bucket_of_day d) [0; 1; 2; 3; 4; 5] /\
    buckets = map (fun k => mkBar (d * DAY + FOUR_HOURS * k)
                              (Some (inject_Z (4 * k + 1)))
                              (Some (inject_Z (4 * k + 4)))
                              (Some (inject_Z (4 * k + 1)))
                              (Some (inject_Z (4 * k + 4)))
                              (Some (inject_Z (16 * k + 10))))
                  [0; 1; 2; 3; 4; 5].
Proof.
  eexists. split.
  - unfold one_day at 1. rewrite _resample_to_4h_datetime.
    unfold dropna. cbn [df_index df_rows].
    change (map (fun h => hourly_bar d (Z.of_nat h)) (seq 0 24))
      with (df_rows (one_day d)).
    rewrite one_day_shift, resample_4H_agg_shift, dropna_rows_shift.
    reflexivity.
  - assert (Hday0 :
      List.filter (fun b => negb (row_has_nan b))
                  (resample_4H_agg (df_rows (one_day 0))) =
      map (fun k => mkBar (FOUR_HOURS * k)
                      (Some (inject_Z (4 * k + 1))) (Some (inject_Z (4 * k + 4)))
                      (Some (inject_Z (4 * k + 1))) (Some (inject_Z (4 * k + 4)))
                      (Some (inject_Z (16 * k + 10))))
          [0; 1; 2; 3; 4; 5]) by (vm_compute; reflexivity).
    rewrite Hday0. clear Hday0.
    split; [reflexivity |].
    split; [| split].
    + rewrite one_day_shift.
      repeat constructor;
        match goal with
        | |- List.filter (in_bin (d * DAY + FOUR_HOURS * ?k)) _ = _ =>
            replace (d * DAY + FOUR_HOURS * k) with (FOUR_HOURS * k + DAY * d) by lia;
            rewrite filter_in_bin_shift;
            replace (List.filter (in_bin (FOUR_HOURS * k)) (df_rows (one_day 0)))
              with (hours_of_bucket 0 k) by (vm_compute; reflexivity)
        end;
        unfold hours_of_bucket, hourly_bar, shift_bar; cbn [map ts Open High Low Close Volume];
        repeat (f_equal; try lia).
    + cbn [map]. unfold bucket_of_day, hours_of_bucket, spec_bucket, shift_bar.
      cbn [tl ts Open High Low Close Volume].
      repeat (f_equal; try (unfold DAY, FOUR_HOURS; lia)).
    + cbn [map]. unfold shift_bar. cbn [ts Open High Low Close Volume].
      repeat (f_equal; try (unfold DAY, FOUR_HOURS; lia)).
Qed.

(** ** The 4-hour series *)

(** As the claim is written, C4 fails when the provider has no rows: the
    result is [None], not the cleaned aggregation of the empty series. *)
Lemma get_stock_data_4h_counterexample :
  history yf_no_data "TCS.NS" "60d" "1h" = inr (mkDataFrame DatetimeIndex []) /\
  _resample_to_4h (mkDataFrame DatetimeIndex []) [] =
    (inr (mkDataFrame DatetimeIndex []), []) /\
  get_stock_data yf_no_data "TCS.NS" "60d" "4h" [] = (inr None, []) /\
  get_stock_data yf_no_data "TCS.NS" "60d" "4h" [] <>
    (inr (Some (dropna (mkDataFrame DatetimeIndex []))), []).
Proof.
  repeat split; try reflexivity. discriminate.
Qed.

(** C4, amended: for the interval 4h and a provider that returns at least
    one hourly row, [get_stock_data] asks the provider for 1h bars and returns
    what [_resample_to_4h] makes of them, with the rows that miss a field
    removed. *)
Theorem get_stock_data_4h (yf : Provider) (symbol period : string)
    (out : list string) (df : DataFrame) :
  history yf symbol period "1h" = inr df ->
  df_rows df <> [] ->
  exists r out',
    _resample_to_4h df out = (inr r, out') /\
    get_stock_data yf symbol period "4h" out = (inr (Some (dropna r)), out').
Proof.
  intros Hdf Hrows.
  assert (Hne : df_empty df = false)
    by (unfold df_empty; destruct (df_rows df); congruence).
  unfold get_stock_data. rewrite yf_interval_4h. run_py. rewrite Hdf, Hne.
  destruct (_resample_to_4h_total df out) as [(r & _ & Hr) | (e & _ & Hr)];
    rewrite Hr; eauto.
Qed.

Lemma get_stock_data_4h_witness :
  exists r out',
    _resample_to_4h two_gapped_bars [] = (inr r, out') /\
    get_stock_data yf_gapped "TCS.NS" "60d" "4h" [] = (inr (Some (dropna r)), out').
Proof.
  apply (get_stock_data_4h yf_gapped "TCS.NS" "60d" [] two_gapped_bars).
  - reflexivity.
  - discriminate.
Defined.

(** ** A series may be empty *)

Lemma filter_none {A} (f : A -> bool) (l : list A) :
  (forall x, In x l -> f x = false) -> List.filter f l = [].
Proof.
  induction l as [| x l IH]; intros Hall; [reflexivity |].
  cbn [List.filter]. rewrite (Hall x (or_introl eq_refl)).
  apply IH. intros y Hy. apply Hall. right. exact Hy.
Qed.

Lemma dropna_all_nan (df : DataFrame) :
  (forall b, In b (df_rows df) -> row_has_nan b = true) ->
  df_rows (dropna df) = [].
Proof.
  intros Hall. unfold dropna. cbn [df_rows]. apply filter_none.
  intros b Hb. rewrite (Hall b Hb). reflexivity.
Qed.

Lemma in_insert_by_ts (x b : Bar) (l : list Bar) :
  In x (insert_by_ts b l) -> x = b \/ In x l.
Proof.
  induction l as [| y l IH]; cbn [insert_by_ts].
  - intros [<- | []]. left. reflexivity.
  - destruct (ts b <=? ts y).
    + intros [<- | Hx]; [left; reflexivity | right; exact Hx].
    + intros [<- | Hx]; [right; left; reflexivity |].
      destruct (IH Hx) as [-> | Hin]; [left; reflexivity | right; right; exact Hin].
Qed.

Lemma in_sort_by_ts (x : Bar) (l : list Bar) : In x (sort_by_ts l) -> In x l.
Proof.
  unfold sort_by_ts. induction l as [| b l IH]; cbn [fold_right]; [trivial |].
  intros Hx. destruct (in_insert_by_ts _ _ _ Hx) as [-> | Hin].
  - left. reflexivity.
  - right. apply IH. exact Hin.
Qed.

Lemma valid_all_nan (l : list cell) :
  (forall c, In c l -> c = None) -> valid l = [].
Proof.
  unfold valid. induction l as [| c l IH]; intros Hall; [reflexivity |].
  rewrite (Hall c (or_introl eq_refl)). cbn. apply IH.
  intros c' Hc'. apply Hall. right. exact Hc'.
Qed.

(** A bucket misses a price that all its rows miss. *)
Lemma agg_bin_nan (col : Bar -> cell) (rows : list Bar) (b : Z) :
  In col price_columns ->
  (forall r, In r rows -> col r = None) ->
  row_has_nan (agg_bin rows b) = true.
Proof.
  intros Hcol Hall.
  assert (Hvalid : valid (map col (List.filter (in_bin b) rows)) = []).
  { apply valid_all_nan. intros c Hc. apply in_map_iff in Hc.
    destruct Hc as (r & <- & Hr). apply Hall.
    apply filter_In in Hr. tauto. }
  unfold row_has_nan, agg_bin. cbn [Open High Low Close Volume].
  unfold agg_first, agg_max, agg_min, agg_last.
  cbn [price_columns In] in Hcol.
  destruct Hcol as [<- | [<- | [<- | [<- | []]]]]; rewrite Hvalid; cbn;
    rewrite ?orb_true_r; reflexivity.
Qed.

Lemma resample_4H_agg_nan (col : Bar -> cell) (rows : list Bar) :
  In col price_columns ->
  (forall r, In r rows -> col r = None) ->
  forall b, In b (resample_4H_agg rows) -> row_has_nan b = true.
Proof.
  intros Hcol Hall b. unfold resample_4H_agg.
  destruct (sort_by_ts rows) as [| first rest] eqn:Hsort; [intros [] |].
  intros Hb. apply in_map_iff in Hb. destruct Hb as (i & <- & _).
  apply (agg_bin_nan col); [exact Hcol |].
  intros r Hr. apply Hall. apply in_sort_by_ts. rewrite Hsort. exact Hr.
Qed.

(** As the claim is written, C10 fails for the interval 4h: both hourly rows
    of [two_gapped_bars] miss a field, yet their bucket is complete and the
    series returned has one row. *)
Lemma get_stock_data_gapped_counterexample :
  history yf_gapped "TCS.NS" "60d" "1h" = inr two_gapped_bars /\
  (forall b, In b (df_rows two_gapped_bars) -> row_has_nan b = true) /\
  get_stock_data yf_gapped "TCS.NS" "60d" "4h" [] =
    (inr (Some (mkDataFrame DatetimeIndex
                  [mkBar 1704268800 (Some 100%Q) (Some 120%Q) (Some 95%Q)
                         (Some 115%Q) (Some 12000%Q)])), []).
Proof.
  split; [reflexivity |]. split; [| reflexivity].
  intros b [<- | [<- | []]]; reflexivity.
Qed.

(** C10, amended: when the provider returns at least one row,
    [get_stock_data] returns a series and not [None], even if cleaning leaves
    no row.  For an interval other than 4h the series is the cleaned provider
    frame, which is empty when every row misses a field; for 4h it is empty
    when every row misses the same price. *)
Theorem get_stock_data_some (yf : Provider) (symbol period interval : string)
    (out : list string) (df : DataFrame) :
  history yf symbol period (default interval (interval_map !! interval)) = inr df ->
  df_rows df <> [] ->
  exists r out',
    get_stock_data yf symbol period interval out = (inr (Some r), out') /\
    (interval <> "4h" ->
     r = dropna df /\ out' = out /\
     ((forall b, In b (df_rows df) -> row_has_nan b = true) -> df_rows r = [])) /\
    (interval = "4h" ->
     forall col, In col price_columns ->
       (forall b, In b (df_rows df) -> col b = None) -> df_rows r = []).
Proof.
  intros Hdf Hrows.
  assert (Hne : df_empty df = false)
    by (unfold df_empty; destruct (df_rows df); congruence).
  destruct (String.eqb_spec interval "4h") as [-> | Hint].
  - unfold get_stock_data. rewrite yf_interval_4h in *. run_py. rewrite Hdf, Hne.
    destruct (_resample_to_4h_total df out) as [(r & Hagg & Hr) | (e & _ & Hr)];
      rewrite Hr; eexists _, _; (split; [reflexivity |]);
      (split; [intros Hx; exfalso; apply Hx; reflexivity |]);
      intros _ col Hcol Hall.
    + unfold resample_agg in Hagg. destruct (df_index df); [| discriminate].
      injection Hagg as <-. apply dropna_all_nan. cbn [dropna df_rows].
      intros b Hb. apply filter_In in Hb. destruct Hb as [Hb _].
      exact (resample_4H_agg_nan col _ Hcol Hall b Hb).
    + apply dropna_all_nan. intros b Hb.
      pose proof (Hall b Hb) as Hnan. unfold row_has_nan.
      cbn [price_columns In] in Hcol.
      destruct Hcol as [<- | [<- | [<- | [<- | []]]]]; rewrite Hnan; cbn;
        rewrite ?orb_true_r; reflexivity.
  - unfold get_stock_data. run_py. rewrite Hdf, Hne.
    rewrite (proj2 (String.eqb_neq _ _) Hint). cbn.
    eexists _, _. split; [reflexivity |].
    split; [| intros Hx; contradiction].
    intros _. repeat split. apply dropna_all_nan.
Qed.

Lemma get_stock_data_some_witness :
  get_stock_data yf_blank_bar "TCS.NS" "60d" "1d" [] =
    (inr (Some (mkDataFrame DatetimeIndex [])), []) /\
  get_stock_data yf_blank_bar "TCS.NS" "60d" "4h" [] =
    (inr (Some (mkDataFrame DatetimeIndex [])), []).
Proof.
  split.
  - destruct (get_stock_data_some yf_blank_bar "TCS.NS" "60d" "1d" []
                (mkDataFrame DatetimeIndex
                   [mkBar 1704240000 None None None None (Some 0%Q)]))
      as (r & out' & Hrun & Hother & _); [reflexivity | discriminate |].
    rewrite Hrun. destruct Hother as (-> & -> & _); [discriminate |].
    reflexivity.
  - reflexivity.
Defined.

(** * Further properties of the facade *)

(** ** More on fetching a series *)

(** Every interval but 4h goes to the provider as it is, the intervals that
    [interval_map] does not list too. *)
Lemma yf_interval_other (interval : string) :
  interval <> "4h" -> default interval (interval_map !! interval) = interval.
Proof.
  intros Hne. unfold interval_map.
  destruct (decide (interval = "15m")) as [-> | H15]; [reflexivity |].
  destruct (decide (interval = "1h")) as [-> | H1h]; [reflexivity |].
  destruct (decide (interval = "1d")) as [-> | H1d]; [reflexivity |].
  rewrite !lookup_insert_ne by congruence.
  rewrite lookup_singleton_ne by congruence. reflexivity.
Qed.

(** What [get_stock_data] computes, by the cases of its body. *)
Lemma get_stock_data_cases (yf : Provider) (symbol period interval : string)
    (out : list string) :
  match history yf symbol period (default interval (interval_map !! interval)) with
  | inl e =>
      get_stock_data yf symbol period interval out =
        (inr None,
         (out ++ ["Error fetching data for " +:+ symbol +:+ ": " +:+ exn_str e])%list)
  | inr df =>
      if df_empty df then
        get_stock_data yf symbol period interval out = (inr None, out)
      else if String.eqb interval "4h" then
        match resample_agg df with
        | inr r =>
            get_stock_data yf symbol period interval out =
              (inr (Some (dropna (dropna r))), out)
        | inl e =>
            get_stock_data yf symbol period interval out =
              (inr (Some (dropna df)),
               (out ++ ["Error resampling to 4h: " +:+ exn_str e])%list)
        end
      else
        get_stock_data yf symbol period interval out = (inr (Some (dropna df)), out)
  end.
Proof.
  unfold get_stock_data.
  destruct (String.eqb_spec interval "4h") as [-> | Hint].
  - rewrite yf_interval_4h. run_py.
    destruct (history yf symbol period "1h") as [e | df]; [reflexivity |].
    cbn. destruct (df_empty df); [reflexivity |].
    unfold _resample_to_4h. run_py.
    destruct (resample_agg df); reflexivity.
  - rewrite (yf_interval_other interval Hint).
    unfold try_except, mbind, M_bind, bind, mret, M_ret, ret, lift, print.
    destruct (history yf symbol period interval) as [e | df]; [reflexivity |].
    cbn. destruct (df_empty df); reflexivity.
Qed.

(** X1: for an interval other than 4h, listed in [interval_map] or not,
    [get_stock_data] asks the provider for that very interval and returns its
    frame without the rows that miss a field, printing nothing. *)
Theorem get_stock_data_passthrough (yf : Provider) (symbol period interval : string)
    (out : list string) (df : DataFrame) :
  interval <> "4h" ->
  history yf symbol period interval = inr df ->
  df_rows df <> [] ->
  get_stock_data yf symbol period interval out = (inr (Some (dropna df)), out).
Proof.
  intros Hint Hdf Hrows.
  pose proof (get_stock_data_cases yf symbol period interval out) as Hc.
  rewrite (yf_interval_other interval Hint), Hdf in Hc.
  unfold df_empty in Hc. destruct (df_rows df); [congruence |].
  rewrite (proj2 (String.eqb_neq _ _) Hint) in Hc. exact Hc.
Qed.

Lemma get_stock_data_passthrough_witness :
  get_stock_data yf_gapped "TCS.NS" "1mo" "90m" [] =
    (inr (Some (dropna two_gapped_bars)), []).
Proof.
  apply (get_stock_data_passthrough yf_gapped "TCS.NS" "1mo" "90m" [] two_gapped_bars).
  - discriminate.
  - reflexivity.
  - discriminate.
Defined.

(** X2: [get_stock_data] never raises, and it returns [None] exactly when the
    provider raised or returned a frame without rows. *)
Theorem get_stock_data_none_iff (yf : Provider) (symbol period interval : string)
    (out : list string) :
  exists r out',
    get_stock_data yf symbol period interval out = (inr r, out') /\
    (r = None <->
     (exists e, history yf symbol period
                  (default interval (interval_map !! interval)) = inl e) \/
     (exists df, history yf symbol period
                   (default interval (interval_map !! interval)) = inr df /\
                 df_rows df = [])).
Proof.
  pose proof (get_stock_data_cases yf symbol period interval out) as Hc.
  destruct (history yf symbol period (default interval (interval_map !! interval)))
    as [e | df].
  - eexists _, _. split; [exact Hc |]. split; [eauto | reflexivity].
  - unfold df_empty in Hc. destruct (df_rows df) as [| b rows] eqn:Hrows.
    + eexists _, _. split; [exact Hc |]. split; [| reflexivity].
      intros _. right. exists df. split; [reflexivity | exact Hrows].
    + assert (Hno : ~ ((exists e : exn, @inr exn _ df = inl e) \/
                       (exists df', @inr exn _ df = inr df' /\ df_rows df' = []))).
      { intros [[e He] | (df' & Hdf' & Hr')]; [discriminate |].
        injection Hdf' as <-. congruence. }
      destruct (String.eqb interval "4h").
      * destruct (resample_agg df); eexists _, _; (split; [exact Hc |]);
          (split; [discriminate | intros H; contradiction]).
      * eexists _, _. split; [exact Hc |].
        split; [discriminate | intros H; contradiction].
Qed.

(** X3: a series returned by [get_stock_data] has no row with a missing
    field, whatever the interval and whether the aggregation worked or not. *)
Theorem get_stock_data_clean (yf : Provider) (symbol period interval : string)
    (out out' : list string) (r : DataFrame) :
  get_stock_data yf symbol period interval out = (inr (Some r), out') ->
  Forall (fun b => row_has_nan b = false) (df_rows r).
Proof.
  intros Hrun.
  assert (Hshape : exists d, r = dropna d).
  { pose proof (get_stock_data_cases yf symbol period interval out) as Hc.
    rewrite Hrun in Hc.
    destruct (history yf symbol period _) as [e | df]; [discriminate |].
    destruct (df_empty df); [discriminate |].
    destruct (String.eqb interval "4h").
    - destruct (resample_agg df); injection Hc as -> _; eauto.
    - injection Hc as -> _. eauto. }
  destruct Hshape as [d ->]. unfold dropna. cbn [df_rows].
  apply List.Forall_forall. intros b Hb. apply filter_In in Hb.
  destruct Hb as [_ Hb]. destruct (row_has_nan b); [discriminate | reflexivity].
Qed.

Lemma get_stock_data_clean_witness :
  Forall (fun b => row_has_nan b = false)
         [mkBar 1704268800 (Some 100%Q) (Some 120%Q) (Some 95%Q)
                (Some 115%Q) (Some 12000%Q)].
Proof.
  apply (get_stock_data_clean yf_gapped "TCS.NS" "60d" "4h" [] []
           (mkDataFrame DatetimeIndex
              [mkBar 1704268800 (Some 100%Q) (Some 120%Q) (Some 95%Q)
                     (Some 115%Q) (Some 12000%Q)])).
  reflexivity.
Defined.

(** X4: when the provider's hourly frame cannot be resampled (its index is
    not made of timestamps), a 4h request still returns a series: the hourly
    bars themselves, cleaned, after the error is printed. *)
Theorem get_stock_data_4h_fallback (yf : Provider) (symbol period : string)
    (out : list string) (df : DataFrame) :
  history yf symbol period "1h" = inr df ->
  df_index df = PlainIndex ->
  df_rows df <> [] ->
  exists e,
    resample_agg df = inl e /\
    get_stock_data yf symbol period "4h" out =
      (inr (Some (dropna df)),
       (out ++ ["Error resampling to 4h: " +:+ exn_str e])%list).
Proof.
  intros Hdf Hidx Hrows.
  pose proof (get_stock_data_cases yf symbol period "4h" out) as Hc.
  rewrite yf_interval_4h, Hdf in Hc.
  unfold df_empty in Hc. destruct (df_rows df); [congruence |].
  cbn [String.eqb Ascii.eqb Bool.eqb] in Hc.
  unfold resample_agg in *. rewrite Hidx in *.
  eexists. split; [reflexivity | exact Hc].
Qed.

(** A provider of hourly bars under a plain index. *)
Lemma get_stock_data_4h_fallback_witness :
  exists e,
    resample_agg unindexed_frame = inl e /\
    get_stock_data (mkProvider (fun _ _ _ => inr unindexed_frame) (fun _ => inr ∅))
                   "TCS.NS" "60d" "4h" [] =
      (inr (Some (dropna unindexed_frame)),
       ["Error resampling to 4h: " +:+ exn_str e]).
Proof.
  apply (get_stock_data_4h_fallback
           (mkProvider (fun _ _ _ => inr unindexed_frame) (fun _ => inr ∅))
           "TCS.NS" "60d" [] unindexed_frame).
  - reflexivity.
  - reflexivity.
  - discriminate.
Defined.

(** ** More on the latest price *)

(** On a quote the body never raises: the division is guarded. *)
Lemma get_latest_price_on_quote (yf : Provider) (symbol : string)
    (out : list string) (quote : gmap string Q) :
  info yf symbol = inr quote ->
  exists snap, get_latest_price yf symbol out = (inr (Some snap), out).
Proof.
  intros Hinfo. unfold get_latest_price. run_py. rewrite Hinfo. simpl.
  unfold dict_get, truediv.
  destruct (quote !! "previousClose") as [p |]; simpl; [| eauto].
  destruct (Qeq_bool p 0); simpl; eauto.
Qed.

(** X5: [get_latest_price] never raises; it returns [None] exactly when the
    provider raised, and then prints one line with the symbol and the error;
    otherwise it prints nothing. *)
Theorem get_latest_price_none_iff (yf : Provider) (symbol : string)
    (out : list string) :
  exists r out',
    get_latest_price yf symbol out = (inr r, out') /\
    (r = None <-> exists e, info yf symbol = inl e) /\
    (forall e, info yf symbol = inl e ->
       out' = (out ++ ["Error fetching latest price for " +:+ symbol +:+ ": "
                         +:+ exn_str e])%list) /\
    (forall quote, info yf symbol = inr quote -> out' = out).
Proof.
  destruct (info yf symbol) as [e | quote] eqn:Hinfo.
  - exists None. eexists. split.
    + unfold get_latest_price. run_py. rewrite Hinfo. reflexivity.
    + split; [split; eauto |]. split.
      * intros e' He'. injection He' as <-. reflexivity.
      * intros quote Hq. discriminate.
  - destruct (get_latest_price_on_quote yf symbol out quote Hinfo)
      as (snap & Hrun).
    exists (Some snap), out. split; [exact Hrun |].
    split; [split; [discriminate | intros [e He]; discriminate] |].
    split; [intros e He; discriminate | reflexivity].
Qed.

(** X6: a quote without [currentPrice] is priced at 0: with a previous close
    [p] that is not zero the change is [- p] and the change in percent is
    -100. *)
Theorem get_latest_price_without_current (yf : Provider) (symbol : string)
    (out : list string) (quote : gmap string Q) (p : Q) :
  info yf symbol = inr quote ->
  quote !! "currentPrice" = None ->
  quote !! "previousClose" = Some p ->
  ~ (p == 0)%Q ->
  exists snap,
    get_latest_price yf symbol out = (inr (Some snap), out) /\
    current_price snap = 0%Q /\
    previous_close snap = p /\
    (change snap == - p)%Q /\
    (change_percent snap == - (100))%Q.
Proof.
  intros Hinfo Hc Hp Hnz. unfold get_latest_price. run_py. rewrite Hinfo. simpl.
  unfold dict_get, truediv. rewrite Hc, Hp. simpl.
  destruct (Qeq_bool p 0) eqn:Hz; [apply Qeq_bool_iff in Hz; contradiction |].
  simpl. eexists. split; [reflexivity |]. simpl.
  split; [reflexivity |]. split; [reflexivity |]. split.
  - ring.
  - field. exact Hnz.
Qed.

Lemma get_latest_price_without_current_witness :
  exists snap,
    get_latest_price (mkProvider (fun _ _ _ => inl (ProviderError "unused"))
                                 (fun _ => inr {[ "previousClose" := 90%Q ]}))
                     "TCS.NS" [] = (inr (Some snap), []) /\
    current_price snap = 0%Q /\
    previous_close snap = 90%Q /\
    (change snap == - (90))%Q /\
    (change_percent snap == - (100))%Q.
Proof.
  apply (get_latest_price_without_current
           (mkProvider (fun _ _ _ => inl (ProviderError "unused"))
                       (fun _ => inr {[ "previousClose" := 90%Q ]}))
           "TCS.NS" [] {[ "previousClose" := 90%Q ]} 90).
  - reflexivity.
  - reflexivity.
  - reflexivity.
  - discriminate.
Defined.

(** ** Validation and fetching agree *)

(** X7: [validate_symbol] answers [True] exactly when [get_stock_data] for
    the period 5d and the interval 1d returns a series and not [None]: both
    look at the same provider frame. *)
Theorem validate_symbol_iff_series (yf : Provider) (symbol : string)
    (out : list string) :
  fst (validate_symbol yf symbol out) = inr true <->
  exists r, fst (get_stock_data yf symbol "5d" "1d" out) = inr (Some r).
Proof.
  pose proof (get_stock_data_cases yf symbol "5d" "1d" out) as Hc.
  change (default "1d" (interval_map !! "1d")) with "1d" in Hc.
  cbn [String.eqb Ascii.eqb Bool.eqb] in Hc.
  unfold validate_symbol. run_py.
  destruct (history yf symbol "5d" "1d") as [e | df]; simpl.
  - rewrite Hc. simpl. split; [discriminate | intros [r Hr]; discriminate].
  - destruct (df_empty df); rewrite Hc; simpl.
    + split; [discriminate | intros [r Hr]; discriminate].
    + split; eauto.
Qed.

(** ** More on market hours *)

(** X8: on a working day the market is open from 09:15:00.000000 to
    15:30:00.000000, both included, and closed one microsecond before and
    after; on the other days it is closed at any time.  Nothing is printed. *)
Theorem check_market_hours_edges (y m d : Z) (out : list string) :
  let at_time h mi s us := check_market_hours (mkDatetime y m d h mi s us) out in
  (is_working_day (day_name_of (mkDatetime y m d 0 0 0 0)) = true ->
   at_time 9 15 0 0 = (inr true, out) /\
   at_time 15 30 0 0 = (inr true, out) /\
   at_time 9 14 59 999999 = (inr false, out) /\
   at_time 15 30 0 1 = (inr false, out)) /\
  (is_working_day (day_name_of (mkDatetime y m d 0 0 0 0)) = false ->
   forall h mi s us, at_time h mi s us = (inr false, out)).
Proof.
  cbv zeta.
  assert (Hday : forall h mi s us,
    (weekday (mkDatetime y m d h mi s us) <? 5)
    = is_working_day (day_name_of (mkDatetime y m d 0 0 0 0))).
  { intros. rewrite <- weekday_working. reflexivity. }
  split.
  - intros Hwork.
    repeat split; unfold check_market_hours; run_py;
      rewrite Hday, Hwork;
      unfold dt_le, dt_fields, replace_time;
      cbn -[Z.compare]; rewrite !Z.compare_refl; reflexivity.
  - intros Hrest h mi s us. unfold check_market_hours.
    unfold try_except, mbind, M_bind, bind, mret, M_ret, ret.
    rewrite Hday, Hrest. reflexivity.
Qed.

Lemma check_market_hours_edges_witness :
  check_market_hours (mkDatetime 2024 1 3 15 30 0 0) [] = (inr true, []) /\
  check_market_hours (mkDatetime 2024 1 3 15 30 0 1) [] = (inr false, []) /\
  check_market_hours (mkDatetime 2024 1 7 12 0 0 0) [] = (inr false, []).
Proof.
  split; [| split].
  - apply (proj1 (check_market_hours_edges 2024 1 3 [])). reflexivity.
  - apply (proj1 (check_market_hours_edges 2024 1 3 [])). reflexivity.
  - apply (proj2 (check_market_hours_edges 2024 1 7 [])). reflexivity.
Defined.

(** ** Fetching many series *)

(** [get_stock_data] only appends to the output, and what it returns and
    prints does not depend on what was printed before. *)
Lemma get_stock_data_out (yf : Provider) (symbol period interval : string)
    (out : list string) :
  get_stock_data yf symbol period interval out =
    (inr (fetched yf period interval symbol),
     (out ++ fetch_log yf period interval symbol)%list).
Proof.
  unfold fetched, fetch_log.
  pose proof (get_stock_data_cases yf symbol period interval out) as Hc.
  pose proof (get_stock_data_cases yf symbol period interval []) as Hn.
  destruct (history yf symbol period _) as [e | df].
  - rewrite Hc, Hn. reflexivity.
  - destruct (df_empty df).
    + rewrite Hc, Hn. cbn. rewrite app_nil_r. reflexivity.
    + destruct (String.eqb interval "4h").
      * destruct (resample_agg df); rewrite Hc, Hn; cbn;
          rewrite ?app_nil_r; reflexivity.
      * rewrite Hc, Hn. cbn. rewrite app_nil_r. reflexivity.
Qed.

(** One turn of the loop: the handler of the loop is never reached, because
    [get_stock_data] has caught everything already. *)
Lemma stocks_loop_cons (yf : Provider) (period interval symbol : string)
    (rest : list string) (m0 : gmap string DataFrame) (out : list string) :
  stocks_loop yf period interval (symbol :: rest) m0 out =
  stocks_loop yf period interval rest
    (match fetched yf period interval symbol with
     | Some d => <[symbol := d]> m0
     | None => m0
     end)
    (out ++ fetch_log yf period interval symbol)%list.
Proof.
  cbn [stocks_loop]. unfold try_except, mbind, M_bind, bind, time_sleep.
  rewrite get_stock_data_out. reflexivity.
Qed.

Lemma stocks_loop_spec (yf : Provider) (period interval : string)
    (symbols : list string) :
  forall (m0 : gmap string DataFrame) (out : list string),
  exists m,
    stocks_loop yf period interval symbols m0 out =
      (inr m, (out ++ concat (map (fetch_log yf period interval) symbols))%list) /\
    forall s,
      m !! s =
        match (if decide (s ∈ symbols) then fetched yf period interval s else None) with
        | Some d => Some d
        | None => m0 !! s
        end.
Proof.
  induction symbols as [| symbol rest IH]; intros m0 out.
  - exists m0. split; [cbn; rewrite app_nil_r; reflexivity |].
    intros s. destruct (decide (s ∈ [])) as [Hin | _]; [| reflexivity].
    inversion Hin.
  - rewrite stocks_loop_cons.
    destruct (IH (match fetched yf period interval symbol with
                  | Some d => <[symbol := d]> m0
                  | None => m0
                  end)
                 (out ++ fetch_log yf period interval symbol)%list)
      as (m & Hrun & Hlook).
    exists m. split.
    + rewrite Hrun. cbn [map concat]. rewrite app_assoc. reflexivity.
    + intros s. rewrite Hlook.
      destruct (decide (s ∈ rest)) as [Hrest | Hrest].
      * rewrite decide_True by (right; exact Hrest).
        destruct (fetched yf period interval s) as [d |] eqn:Hs; [reflexivity |].
        destruct (decide (s = symbol)) as [-> | Hne].
        -- rewrite Hs. reflexivity.
        -- destruct (fetched yf period interval symbol); [| reflexivity].
           rewrite lookup_insert_ne by congruence. reflexivity.
      * destruct (decide (s = symbol)) as [-> | Hne].
        -- rewrite decide_True by left.
           destruct (fetched yf period interval symbol); [| reflexivity].
           rewrite lookup_insert_eq. reflexivity.
        -- rewrite decide_False
             by (intros Hin; apply elem_of_cons in Hin; tauto).
           destruct (fetched yf period interval symbol); [| reflexivity].
           rewrite lookup_insert_ne by congruence. reflexivity.
Qed.

(** X9: [get_multiple_stocks_data] never raises and goes through the whole
    list: its dictionary has, for each symbol of the list, the series that
    [get_stock_data] returns for it, no entry for a symbol whose fetch gives
    [None], and nothing else; the output is that of the fetches, in order, the
    loop's own handler printing nothing. *)
Theorem get_multiple_stocks_data_spec (yf : Provider) (symbols : list string)
    (period interval : string) (out : list string) :
  exists m,
    get_multiple_stocks_data yf symbols period interval out =
      (inr m, (out ++ concat (map (fetch_log yf period interval) symbols))%list) /\
    forall s,
      m !! s = if decide (s ∈ symbols) then fetched yf period interval s else None.
Proof.
  destruct (stocks_loop_spec yf period interval symbols ∅ out) as (m & Hrun & Hlook).
  exists m. split; [exact Hrun |].
  intros s. rewrite Hlook, lookup_empty.
  destruct (decide (s ∈ symbols)); [| reflexivity].
  destruct (fetched yf period interval s); reflexivity.
Qed.

(** The keys of the dictionary are the symbols whose fetch gave a series. *)
Lemma stocks_dom_all (symbols : list string) (m : gmap string DataFrame)
    (f : string -> option DataFrame) :
  (forall s, m !! s = if decide (s ∈ symbols) then f s else None) ->
  (forall s, s ∈ symbols -> is_Some (f s)) ->
  dom m = list_to_set symbols.
Proof.
  intros Hlook Hall. apply set_eq. intros s.
  rewrite elem_of_dom, elem_of_list_to_set, Hlook.
  destruct (decide (s ∈ symbols)) as [Hin | Hout].
  - split; [intros _; exact Hin | intros _; apply Hall; exact Hin].
  - split; [intros [d Hd]; discriminate | intros Hin; contradiction].
Qed.

(** X10: when the symbols are distinct and every fetch gives a series, the
    dictionary of [get_multiple_stocks_data] has one entry per symbol. *)
Theorem get_multiple_stocks_data_size (yf : Provider) (symbols : list string)
    (period interval : string) (out : list string) :
  NoDup symbols ->
  (forall s, s ∈ symbols -> is_Some (fetched yf period interval s)) ->
  exists m out',
    get_multiple_stocks_data yf symbols period interval out = (inr m, out') /\
    dom m = list_to_set symbols /\
    size m = length symbols.
Proof.
  intros Hnodup Hall.
  destruct (stocks_loop_spec yf period interval symbols ∅ out) as (m & Hrun & Hlook).
  assert (Hdom : dom m = list_to_set symbols).
  { apply (stocks_dom_all symbols m (fetched yf period interval)); [| exact Hall].
    intros s. rewrite Hlook, lookup_empty.
    destruct (decide (s ∈ symbols)); [| reflexivity].
    destruct (fetched yf period interval s); reflexivity. }
  exists m. eexists. split; [exact Hrun |]. split; [exact Hdom |].
  rewrite <- size_dom, Hdom. apply size_list_to_set. exact Hnodup.
Qed.

Lemma get_multiple_stocks_data_size_witness :
  exists m out',
    get_multiple_stocks_data yf_one_bar ["TCS.NS"; "INFY.NS"] "60d" "1d" [] =
      (inr m, out') /\
    dom m = list_to_set ["TCS.NS"; "INFY.NS"] /\
    size m = 2%nat.
Proof.
  apply (get_multiple_stocks_data_size yf_one_bar ["TCS.NS"; "INFY.NS"] "60d" "1d" []).
  - apply (bool_decide_unpack _). vm_compute. exact I.
  - intros s _. eexists. reflexivity.
Defined.

(** The symbols of the default list are distinct. *)
Lemma nse_stock_list_NoDup : NoDup _load_nse_stock_list.
Proof. apply (bool_decide_unpack _). vm_compute. exact I. Qed.

(** X11: a fresh [DataFetcher] lists 93 distinct symbols, so that the batch
    over [get_nse_stock_list] has exactly 93 entries, one per symbol, when
    every fetch gives a series. *)
Theorem get_multiple_stocks_data_default (yf : Provider)
    (period interval : string) (out : list string) :
  (forall s, s ∈ get_nse_stock_list DataFetcher_init ->
             is_Some (fetched yf period interval s)) ->
  NoDup (get_nse_stock_list DataFetcher_init) /\
  length (get_nse_stock_list DataFetcher_init) = 93%nat /\
  exists m out',
    get_multiple_stocks_data yf (get_nse_stock_list DataFetcher_init)
                             period interval out = (inr m, out') /\
    dom m = list_to_set (get_nse_stock_list DataFetcher_init) /\
    size m = 93%nat.
Proof.
  intros Hall. cbn [get_nse_stock_list DataFetcher_init nse_stocks] in *.
  split; [exact nse_stock_list_NoDup |]. split; [reflexivity |].
  destruct (stocks_loop_spec yf period interval _load_nse_stock_list ∅ out)
    as (m & Hrun & Hlook).
  assert (Hdom : dom m = list_to_set _load_nse_stock_list).
  { apply (stocks_dom_all _ m (fetched yf period interval)); [| exact Hall].
    intros s. rewrite Hlook, lookup_empty.
    destruct (decide (s ∈ _load_nse_stock_list)); [| reflexivity].
    destruct (fetched yf period interval s); reflexivity. }
  exists m. eexists. split; [exact Hrun |]. split; [exact Hdom |].
  rewrite <- size_dom, Hdom.
  rewrite (size_list_to_set _ nse_stock_list_NoDup). reflexivity.
Qed.

Lemma get_multiple_stocks_data_default_witness :
  NoDup (get_nse_stock_list DataFetcher_init) /\
  length (get_nse_stock_list DataFetcher_init) = 93%nat /\
  exists m out',
    get_multiple_stocks_data yf_one_bar (get_nse_stock_list DataFetcher_init)
                             "60d" "1d" [] = (inr m, out') /\
    dom m = list_to_set (get_nse_stock_list DataFetcher_init) /\
    size m = 93%nat.
Proof.
  apply (get_multiple_stocks_data_default yf_one_bar "60d" "1d" []).
  intros s _. eexists. reflexivity.
Defined.

(** * The 4-hour candles *)

(** ** The bars in time order *)

Lemma insert_by_ts_perm (b : Bar) (l : list Bar) :
  Permutation (insert_by_ts b l) (b :: l).
Proof.
  induction l as [| x l IH]; cbn [insert_by_ts]; [reflexivity |].
  destruct (ts b <=? ts x); [reflexivity |].
  rewrite IH. apply perm_swap.
Qed.

(** Sorting only reorders the bars. *)
Lemma sort_by_ts_perm (l : list Bar) : Permutation (sort_by_ts l) l.
Proof.
  unfold sort_by_ts. induction l as [| b l IH]; cbn [fold_right]; [constructor |].
  rewrite insert_by_ts_perm. constructor. exact IH.
Qed.

Lemma in_sort_by_ts_iff (x : Bar) (l : list Bar) : In x (sort_by_ts l) <-> In x l.
Proof.
  split; apply Permutation_in; [| symmetry]; apply sort_by_ts_perm.
Qed.

Lemma insert_by_ts_sorted (b : Bar) (l : list Bar) :
  StronglySorted ts_le l -> StronglySorted ts_le (insert_by_ts b l).
Proof.
  induction 1 as [| x l Hs IH Hx]; cbn [insert_by_ts].
  - repeat constructor.
  - destruct (Z.leb_spec (ts b) (ts x)) as [Hle | Hlt].
    + constructor; [constructor; assumption |].
      constructor; [exact Hle |].
      apply List.Forall_forall. intros y Hy.
      pose proof (proj1 (List.Forall_forall _ _) Hx y Hy) as Hxy.
      unfold ts_le in *. lia.
    + constructor; [exact IH |].
      apply List.Forall_forall. intros y Hy.
      apply in_insert_by_ts in Hy. destruct Hy as [-> | Hy].
      * unfold ts_le. lia.
      * exact (proj1 (List.Forall_forall _ _) Hx y Hy).
Qed.

Lemma sort_by_ts_sorted (l : list Bar) : StronglySorted ts_le (sort_by_ts l).
Proof.
  unfold sort_by_ts. induction l as [| b l IH]; cbn [fold_right]; [constructor |].
  apply insert_by_ts_sorted. exact IH.
Qed.

Lemma last_cons (rest : list Bar) : forall y first,
  List.last (y :: rest) first = List.last rest y.
Proof.
  induction rest as [| z rest IH]; intros y first; [reflexivity |].
  change (List.last (y :: z :: rest) first) with (List.last (z :: rest) first).
  rewrite !IH. reflexivity.
Qed.

Lemma last_in (rest : list Bar) : forall first,
  In (List.last rest first) (first :: rest).
Proof.
  induction rest as [| y rest IH]; intros first; [left; reflexivity |].
  rewrite last_cons. right. apply IH.
Qed.

(** In time order the first bar is the earliest and the last one the latest. *)
Lemma sorted_bounds (rest : list Bar) : forall first,
  StronglySorted ts_le (first :: rest) ->
  forall x, In x (first :: rest) ->
    ts first <= ts x <= ts (List.last rest first).
Proof.
  induction rest as [| y rest IH]; intros first Hs x Hx.
  - destruct Hx as [<- | []]. cbn. lia.
  - apply StronglySorted_inv in Hs. destruct Hs as [Hs Hall].
    pose proof (proj1 (List.Forall_forall _ _) Hall) as Hfirst.
    rewrite last_cons.
    pose proof (IH y Hs y (or_introl eq_refl)) as Hy.
    pose proof (Hfirst y (or_introl eq_refl)) as Hfy. unfold ts_le in Hfy.
    destruct Hx as [<- | Hx]; [lia |].
    pose proof (IH y Hs x Hx). lia.
Qed.

Lemma StronglySorted_filter {A} (R : A -> A -> Prop) (f : A -> bool) (l : list A) :
  StronglySorted R l -> StronglySorted R (List.filter f l).
Proof.
  induction 1 as [| x l Hs IH Hx]; cbn [List.filter]; [constructor |].
  destruct (f x); [| exact IH].
  constructor; [exact IH |].
  apply List.Forall_forall. intros y Hy. apply filter_In in Hy.
  exact (proj1 (List.Forall_forall _ _) Hx y (proj1 Hy)).
Qed.

Lemma sorted_lt_le (l : list Bar) :
  StronglySorted ts_lt l -> StronglySorted ts_le l.
Proof.
  induction 1 as [| x l Hs IH Hx]; constructor; [exact IH |].
  apply List.Forall_forall. intros y Hy.
  pose proof (proj1 (List.Forall_forall _ _) Hx y Hy) as Hlt.
  unfold ts_lt, ts_le in *. lia.
Qed.

Lemma sorted_lt_NoDup (l : list Bar) :
  StronglySorted ts_lt l -> List.NoDup (map ts l).
Proof.
  induction 1 as [| x l Hs IH Hx]; cbn [map]; constructor; [| exact IH].
  intros Hin. apply in_map_iff in Hin. destruct Hin as (y & Hy & Hin).
  pose proof (proj1 (List.Forall_forall _ _) Hx y Hin) as Hlt.
  unfold ts_lt in Hlt. lia.
Qed.

(** Two lists in strict time order with the same bars are equal. *)
Lemma sorted_lt_eq (l : list Bar) : forall l',
  StronglySorted ts_lt l -> StronglySorted ts_lt l' ->
  (forall x, In x l <-> In x l') ->
  l = l'.
Proof.
  induction l as [| x t IH]; intros l' Hs Hs' Hsame.
  - destruct l' as [| y t']; [reflexivity |].
    destruct (proj2 (Hsame y) (or_introl eq_refl)).
  - destruct l' as [| y t'].
    { destruct (proj1 (Hsame x) (or_introl eq_refl)). }
    apply StronglySorted_inv in Hs, Hs'.
    destruct Hs as [Hs Hx], Hs' as [Hs' Hy].
    pose proof (proj1 (List.Forall_forall _ _) Hx) as Hxt.
    pose proof (proj1 (List.Forall_forall _ _) Hy) as Hyt.
    unfold ts_lt in Hxt, Hyt.
    assert (Hxy : x = y).
    { destruct (proj1 (Hsame x) (or_introl eq_refl)) as [Heq | Hin]; [congruence |].
      destruct (proj2 (Hsame y) (or_introl eq_refl)) as [Heq | Hin']; [exact Heq |].
      pose proof (Hyt x Hin). pose proof (Hxt y Hin'). lia. }
    subst y. f_equal. apply IH; [exact Hs | exact Hs' |].
    intros z. split; intros Hz.
    + destruct (proj1 (Hsame z) (or_intror Hz)) as [Heq | Hin]; [| exact Hin].
      subst z. pose proof (Hxt x Hz). lia.
    + destruct (proj2 (Hsame z) (or_intror Hz)) as [Heq | Hin]; [| exact Hin].
      subst z. pose proof (Hyt x Hz). lia.
Qed.

Lemma insert_by_ts_min (b : Bar) (l : list Bar) :
  Forall (ts_le b) l -> insert_by_ts b l = b :: l.
Proof.
  destruct 1 as [| x l Hx _]; [reflexivity |].
  cbn [insert_by_ts]. unfold ts_le in Hx.
  destruct (Z.leb_spec (ts b) (ts x)); [reflexivity | lia].
Qed.

Lemma sort_by_ts_sorted_id (l : list Bar) :
  StronglySorted ts_le l -> sort_by_ts l = l.
Proof.
  unfold sort_by_ts. induction 1 as [| x l Hs IH Hx]; [reflexivity |].
  cbn [fold_right]. rewrite IH. apply insert_by_ts_min. exact Hx.
Qed.

(** ** The bins *)

Lemma in_bin_spec (b : Z) (x : Bar) :
  in_bin b x = true <-> b <= ts x < b + FOUR_HOURS.
Proof.
  unfold in_bin. rewrite Bool.andb_true_iff, Z.leb_le, Z.ltb_lt. reflexivity.
Qed.

Lemma in_members (rows : list Bar) (b : Z) (x : Bar) :
  In x (List.filter (in_bin b) (sort_by_ts rows)) <->
  In x rows /\ b <= ts x < b + FOUR_HOURS.
Proof. rewrite filter_In, in_sort_by_ts_iff, in_bin_spec. reflexivity. Qed.

Lemma members_sorted (rows : list Bar) (b : Z) :
  StronglySorted ts_le (List.filter (in_bin b) (sort_by_ts rows)).
Proof. apply StronglySorted_filter, sort_by_ts_sorted. Qed.

(** The shape of the resampled frame: the bins are consecutive 4-hour
    intervals on the grid that starts at midnight, and every bar falls in
    one of them. *)
Lemma resample_4H_agg_bins (rows : list Bar) :
  exists lo n,
    lo mod FOUR_HOURS = 0 /\
    resample_4H_agg rows =
      map (fun i => agg_bin (sort_by_ts rows) (lo + FOUR_HOURS * Z.of_nat i))
          (seq 0 n) /\
    forall x, In x rows ->
      exists i, (i < n)%nat /\ in_bin (lo + FOUR_HOURS * Z.of_nat i) x = true.
Proof.
  unfold resample_4H_agg.
  pose proof (sort_by_ts_sorted rows) as Hsorted.
  pose proof (in_sort_by_ts_iff) as Hin.
  destruct (sort_by_ts rows) as [| first rest] eqn:Hsort.
  - exists 0, 0%nat. split; [reflexivity |]. split; [reflexivity |].
    intros x Hx. apply (Hin x rows) in Hx. rewrite Hsort in Hx. destruct Hx.
  - set (origin := start_day (ts first)).
    set (lo := bin_of origin (ts first)).
    set (hi := bin_of origin (ts (List.last rest first))).
    exists lo, (Z.to_nat ((hi - lo) / FOUR_HOURS + 1)).
    split; [| split; [reflexivity |]].
    + subst lo origin. unfold bin_of, start_day, DAY, FOUR_HOURS.
      Z.div_mod_to_equations. lia.
    + intros x Hx. apply (Hin x rows) in Hx. rewrite Hsort in Hx.
      pose proof (sorted_bounds rest first Hsorted x Hx) as Hb.
      exists (Z.to_nat ((ts x - lo) / FOUR_HOURS)).
      rewrite in_bin_spec.
      subst hi lo origin. unfold bin_of, start_day, DAY, FOUR_HOURS in *.
      split.
      * apply Z2Nat.inj_lt; Z.div_mod_to_equations; lia.
      * rewrite Z2Nat.id; Z.div_mod_to_equations; lia.
Qed.

Lemma bins_increasing (sorted : list Bar) (lo : Z) (n : nat) : forall a,
  StronglySorted ts_lt
    (map (fun i => agg_bin sorted (lo + FOUR_HOURS * Z.of_nat i)) (seq a n)).
Proof.
  induction n as [| n IH]; intros a; cbn [seq map]; constructor.
  - apply IH.
  - apply List.Forall_forall. intros b Hb. apply in_map_iff in Hb.
    destruct Hb as (i & <- & Hi). apply in_seq in Hi.
    unfold ts_lt, agg_bin, FOUR_HOURS. cbn [ts]. lia.
Qed.

Lemma resampled_sorted (rows : list Bar) :
  StronglySorted ts_lt
    (df_rows (dropna (mkDataFrame DatetimeIndex (resample_4H_agg rows)))).
Proof.
  unfold dropna. cbn [df_rows]. apply StronglySorted_filter.
  destruct (resample_4H_agg_bins rows) as (lo & n & _ & -> & _).
  apply bins_increasing.
Qed.

(** A bucket that survives [dropna] has a member: the open of an empty
    bucket is NaN. *)
Lemma agg_bin_member (sorted : list Bar) (b : Z) :
  row_has_nan (agg_bin sorted b) = false ->
  exists x, In x sorted /\ in_bin b x = true.
Proof.
  unfold row_has_nan, agg_bin. cbn [Open High Low Close Volume].
  destruct (List.filter (in_bin b) sorted) as [| x members] eqn:Hmembers.
  - cbn. discriminate.
  - intros _. exists x. apply (filter_In (in_bin b)). rewrite Hmembers.
    left. reflexivity.
Qed.

Lemma resample_kept_row (rows : list Bar) (b : Bar) :
  In b (df_rows (dropna (mkDataFrame DatetimeIndex (resample_4H_agg rows)))) ->
  ts b mod FOUR_HOURS = 0 /\
  b = agg_bin (sort_by_ts rows) (ts b) /\
  row_has_nan b = false /\
  exists x, In x rows /\ ts b <= ts x < ts b + FOUR_HOURS.
Proof.
  unfold dropna. cbn [df_rows]. intros Hb. apply filter_In in Hb.
  destruct Hb as [Hb Hkeep]. apply Bool.negb_true_iff in Hkeep.
  destruct (resample_4H_agg_bins rows) as (lo & n & Hlo & Hbins & _).
  rewrite Hbins in Hb. apply in_map_iff in Hb. destruct Hb as (i & <- & _).
  split; [| split; [reflexivity | split; [exact Hkeep |]]].
  - unfold agg_bin. cbn [ts]. unfold FOUR_HOURS in *.
    Z.div_mod_to_equations. lia.
  - destruct (agg_bin_member _ _ Hkeep) as (x & Hx & Hbin).
    exists x. split; [apply in_sort_by_ts_iff; exact Hx |].
    apply in_bin_spec. exact Hbin.
Qed.

(** ** Labels and number of candles *)

(** X12: the candles that [_resample_to_4h] returns for a frame indexed by
    time carry labels on the 4-hour grid that starts at midnight, in
    strictly increasing order, and each of them covers at least one bar of
    the input: the empty buckets between two sessions are dropped. *)
Theorem _resample_to_4h_labels (rows : list Bar) (out : list string) :
  exists r,
    _resample_to_4h (mkDataFrame DatetimeIndex rows) out = (inr r, out) /\
    df_index r = DatetimeIndex /\
    StronglySorted ts_lt (df_rows r) /\
    forall b, In b (df_rows r) ->
      ts b mod FOUR_HOURS = 0 /\
      exists x, In x rows /\ ts b <= ts x < ts b + FOUR_HOURS.
Proof.
  eexists. split; [apply _resample_to_4h_datetime |].
  split; [reflexivity |]. split.
  - unfold dropna. cbn [df_rows]. apply StronglySorted_filter.
    destruct (resample_4H_agg_bins rows) as (lo & n & _ & -> & _).
    apply bins_increasing.
  - intros b Hb. apply resample_kept_row in Hb. tauto.
Qed.

(** X13: [_resample_to_4h] never returns more candles than it was given
    bars. *)
Theorem _resample_to_4h_length (rows : list Bar) (out : list string) :
  exists r,
    _resample_to_4h (mkDataFrame DatetimeIndex rows) out = (inr r, out) /\
    (length (df_rows r) <= length rows)%nat.
Proof.
  eexists. split; [apply _resample_to_4h_datetime |].
  set (r := dropna (mkDataFrame DatetimeIndex (resample_4H_agg rows))).
  assert (Hsorted : StronglySorted ts_lt (df_rows r)).
  { unfold r, dropna. cbn [df_rows]. apply StronglySorted_filter.
    destruct (resample_4H_agg_bins rows) as (lo & n & _ & -> & _).
    apply bins_increasing. }
  rewrite <- (length_map ts (df_rows r)).
  rewrite <- (length_map (fun x => FOUR_HOURS * (ts x / FOUR_HOURS)) rows).
  apply NoDup_incl_length; [apply sorted_lt_NoDup; exact Hsorted |].
  intros t Ht. apply in_map_iff in Ht. destruct Ht as (b & <- & Hb).
  apply resample_kept_row in Hb. destruct Hb as (Hgrid & _ & _ & x & Hx & Hbin).
  apply in_map_iff. exists x. split; [| exact Hx].
  unfold FOUR_HOURS in *. Z.div_mod_to_equations. lia.
Qed.

(** ** Highs and lows *)

Lemma qmax_ge (a b : Q) : (a <= qmax a b)%Q /\ (b <= qmax a b)%Q.
Proof.
  unfold qmax. destruct (Qle_bool a b) eqn:Hab.
  - apply Qle_bool_iff in Hab. split; [exact Hab | apply Qle_refl].
  - split; [apply Qle_refl |]. apply Qlt_le_weak, Qnot_le_lt.
    intros Hle. apply Qle_bool_iff in Hle. congruence.
Qed.

Lemma qmin_le (a b : Q) : (qmin a b <= a)%Q /\ (qmin a b <= b)%Q.
Proof.
  unfold qmin. destruct (Qle_bool b a) eqn:Hba.
  - apply Qle_bool_iff in Hba. split; [exact Hba | apply Qle_refl].
  - split; [apply Qle_refl |]. apply Qlt_le_weak, Qnot_le_lt.
    intros Hle. apply Qle_bool_iff in Hle. congruence.
Qed.

Lemma fold_qmax_ge (t : list Q) : forall a,
  (a <= fold_left qmax t a)%Q /\
  forall h, In h t -> (h <= fold_left qmax t a)%Q.
Proof.
  induction t as [| q t IH]; intros a; cbn [fold_left].
  - split; [apply Qle_refl | intros h []].
  - destruct (IH (qmax a q)) as [Hinit Hall]. destruct (qmax_ge a q) as [Ha Hq].
    split; [eapply Qle_trans; eassumption |].
    intros h [<- | Hh]; [eapply Qle_trans; eassumption | apply Hall, Hh].
Qed.

Lemma fold_qmin_le (t : list Q) : forall a,
  (fold_left qmin t a <= a)%Q /\
  forall l, In l t -> (fold_left qmin t a <= l)%Q.
Proof.
  induction t as [| q t IH]; intros a; cbn [fold_left].
  - split; [apply Qle_refl | intros l []].
  - destruct (IH (qmin a q)) as [Hinit Hall]. destruct (qmin_le a q) as [Ha Hq].
    split; [eapply Qle_trans; eassumption |].
    intros l [<- | Hl]; [eapply Qle_trans; eassumption | apply Hall, Hl].
Qed.

Lemma fold_qmax_in (t : list Q) : forall a, In (fold_left qmax t a) (a :: t).
Proof.
  induction t as [| q t IH]; intros a; cbn [fold_left]; [left; reflexivity |].
  destruct (IH (qmax a q)) as [Heq | Hin]; [| right; right; exact Hin].
  rewrite <- Heq. unfold qmax. destruct (Qle_bool a q);
    [right; left | left]; reflexivity.
Qed.

Lemma fold_qmin_in (t : list Q) : forall a, In (fold_left qmin t a) (a :: t).
Proof.
  induction t as [| q t IH]; intros a; cbn [fold_left]; [left; reflexivity |].
  destruct (IH (qmin a q)) as [Heq | Hin]; [| right; right; exact Hin].
  rewrite <- Heq. unfold qmin. destruct (Qle_bool q a);
    [right; left | left]; reflexivity.
Qed.

Lemma in_valid (q : Q) (l : list cell) : In q (valid l) <-> In (Some q) l.
Proof.
  unfold valid. induction l as [| c l IH]; [reflexivity |].
  destruct c as [p |]; cbn [omap id In].
  - change (In q (p :: omap id l) <-> Some p = Some q \/ In (Some q) l).
    cbn [In]. rewrite IH. split; intros [H | H]; auto; left; congruence.
  - change (In q (omap id l) <-> None = Some q \/ In (Some q) l).
    rewrite IH. split; [auto | intros [H | H]; [discriminate | exact H]].
Qed.

Lemma agg_max_spec (l : list cell) (h : Q) :
  In (Some h) l ->
  exists H, agg_max l = Some H /\ In (Some H) l /\
    forall q, In (Some q) l -> (q <= H)%Q.
Proof.
  intros Hh. unfold agg_max. pose proof (in_valid) as Hv.
  destruct (valid l) as [| a t] eqn:Hvalid.
  - apply Hv in Hh. rewrite Hvalid in Hh. destruct Hh.
  - eexists. split; [reflexivity |]. split.
    + apply Hv. rewrite Hvalid. apply fold_qmax_in.
    + intros q Hq. apply Hv in Hq. rewrite Hvalid in Hq.
      destruct (fold_qmax_ge t a) as [Hinit Hall].
      destruct Hq as [<- | Hq]; [exact Hinit | apply Hall, Hq].
Qed.

Lemma agg_min_spec (l : list cell) (h : Q) :
  In (Some h) l ->
  exists L, agg_min l = Some L /\ In (Some L) l /\
    forall q, In (Some q) l -> (L <= q)%Q.
Proof.
  intros Hh. unfold agg_min. pose proof (in_valid) as Hv.
  destruct (valid l) as [| a t] eqn:Hvalid.
  - apply Hv in Hh. rewrite Hvalid in Hh. destruct Hh.
  - eexists. split; [reflexivity |]. split.
    + apply Hv. rewrite Hvalid. apply fold_qmin_in.
    + intros q Hq. apply Hv in Hq. rewrite Hvalid in Hq.
      destruct (fold_qmin_le t a) as [Hinit Hall].
      destruct Hq as [<- | Hq]; [exact Hinit | apply Hall, Hq].
Qed.

Lemma in_column_bin (col : Bar -> cell) (rows : list Bar) (b : Z) (c : cell) :
  In c (map col (List.filter (in_bin b) (sort_by_ts rows))) <->
  exists x, In x rows /\ b <= ts x < b + FOUR_HOURS /\ col x = c.
Proof.
  rewrite in_map_iff. split.
  - intros (x & Hc & Hx). apply filter_In in Hx. destruct Hx as [Hx Hbin].
    exists x. rewrite <- in_sort_by_ts_iff, <- in_bin_spec. tauto.
  - intros (x & Hx & Hbin & Hc). exists x. split; [exact Hc |].
    apply filter_In. rewrite in_sort_by_ts_iff, in_bin_spec. tauto.
Qed.

(** X14: the high of a returned candle is the high of one of the bars of
    its four hours and no bar of these hours has a higher one; its low is
    the low of one of them and none has a lower one. *)
Theorem _resample_to_4h_high_low (rows : list Bar) (out : list string) :
  exists r,
    _resample_to_4h (mkDataFrame DatetimeIndex rows) out = (inr r, out) /\
    forall b, In b (df_rows r) ->
      (exists x H, In x rows /\ ts b <= ts x < ts b + FOUR_HOURS /\
                   High x = Some H /\ High b = Some H) /\
      (exists x L, In x rows /\ ts b <= ts x < ts b + FOUR_HOURS /\
                   Low x = Some L /\ Low b = Some L) /\
      forall x, In x rows -> ts b <= ts x < ts b + FOUR_HOURS ->
        (forall h, High x = Some h ->
           exists H, High b = Some H /\ (h <= H)%Q) /\
        (forall l, Low x = Some l ->
           exists L, Low b = Some L /\ (L <= l)%Q).
Proof.
  eexists. split; [apply _resample_to_4h_datetime |].
  intros b Hb. apply resample_kept_row in Hb.
  destruct Hb as (_ & Hagg & Hkeep & _).
  assert (Hhigh : High b = agg_max (map High (List.filter (in_bin (ts b)) (sort_by_ts rows))))
    by (rewrite Hagg at 1; reflexivity).
  assert (Hlow : Low b = agg_min (map Low (List.filter (in_bin (ts b)) (sort_by_ts rows))))
    by (rewrite Hagg at 1; reflexivity).
  unfold row_has_nan in Hkeep.
  destruct (High b) as [H |] eqn:HH;
    [| cbn in Hkeep; rewrite ?Bool.orb_true_r in Hkeep; discriminate].
  destruct (Low b) as [L |] eqn:HL;
    [| cbn in Hkeep; rewrite ?Bool.orb_true_r in Hkeep; discriminate].
  assert (HinH : In (Some H) (map High (List.filter (in_bin (ts b)) (sort_by_ts rows)))).
  { unfold agg_max in Hhigh.
    destruct (valid _) as [| a t] eqn:Hvalid in Hhigh; [discriminate |].
    injection Hhigh as ->. apply in_valid. rewrite Hvalid. apply fold_qmax_in. }
  assert (HinL : In (Some L) (map Low (List.filter (in_bin (ts b)) (sort_by_ts rows)))).
  { unfold agg_min in Hlow.
    destruct (valid _) as [| a t] eqn:Hvalid in Hlow; [discriminate |].
    injection Hlow as ->. apply in_valid. rewrite Hvalid. apply fold_qmin_in. }
  split; [| split].
  - apply in_column_bin in HinH. destruct HinH as (x & Hx & Hbin & Hc).
    exists x, H. tauto.
  - apply in_column_bin in HinL. destruct HinL as (x & Hx & Hbin & Hc).
    exists x, L. tauto.
  - intros x Hx Hbin. split.
    + intros h Hh.
      assert (Hin : In (Some h) (map High (List.filter (in_bin (ts b)) (sort_by_ts rows))))
        by (apply in_column_bin; exists x; tauto).
      destruct (agg_max_spec _ _ Hin) as (H' & Hmax & _ & Hall).
      rewrite Hmax in Hhigh. injection Hhigh as ->.
      exists H'. split; [reflexivity | apply Hall, Hin].
    + intros l Hl.
      assert (Hin : In (Some l) (map Low (List.filter (in_bin (ts b)) (sort_by_ts rows))))
        by (apply in_column_bin; exists x; tauto).
      destruct (agg_min_spec _ _ Hin) as (L' & Hmin & _ & Hall).
      rewrite Hmin in Hlow. injection Hlow as ->.
      exists L'. split; [reflexivity | apply Hall, Hin].
Qed.

(** ** Opens and closes *)

Lemma complete_row (x : Bar) :
  row_has_nan x = false ->
  Open x <> None /\ High x <> None /\ Low x <> None /\ Close x <> None /\
  Volume x <> None.
Proof.
  unfold row_has_nan.
  destruct (Open x), (High x), (Low x), (Close x), (Volume x); cbn;
    intros Hnan; try discriminate Hnan; repeat split; discriminate.
Qed.

Lemma agg_first_head (col : Bar -> cell) (m0 : Bar) (ms : list Bar) :
  col m0 <> None -> agg_first (map col (m0 :: ms)) = col m0.
Proof.
  unfold agg_first, valid. cbn [map]. destruct (col m0) as [q |]; [| congruence].
  reflexivity.
Qed.

Lemma agg_last_last (col : Bar -> cell) (ms : list Bar) : forall m0,
  (forall x, In x (m0 :: ms) -> col x <> None) ->
  agg_last (map col (m0 :: ms)) = col (List.last ms m0).
Proof.
  unfold agg_last, valid.
  induction ms as [| m1 ms IH]; intros m0 Hall.
  - cbn [map List.last]. pose proof (Hall m0 (or_introl eq_refl)) as H0.
    destruct (col m0); [reflexivity | congruence].
  - rewrite last_cons. rewrite <- IH by (intros x Hx; apply Hall; right; exact Hx).
    cbn [map]. pose proof (Hall m0 (or_introl eq_refl)) as H0.
    pose proof (Hall m1 (or_intror (or_introl eq_refl))) as H1.
    destruct (col m0); [| congruence]. destruct (col m1); [| congruence].
    reflexivity.
Qed.

(** X15: when no bar misses a field, the open of a returned candle is the
    open of the earliest bar of its four hours and its close is the close
    of the latest one. *)
Theorem _resample_to_4h_open_close (rows : list Bar) (out : list string) :
  (forall x, In x rows -> row_has_nan x = false) ->
  exists r,
    _resample_to_4h (mkDataFrame DatetimeIndex rows) out = (inr r, out) /\
    forall b, In b (df_rows r) ->
      exists o c,
        In o rows /\ In c rows /\
        ts b <= ts o /\ ts c < ts b + FOUR_HOURS /\
        Open b = Open o /\ Close b = Close c /\
        forall x, In x rows -> ts b <= ts x < ts b + FOUR_HOURS ->
          ts o <= ts x <= ts c.
Proof.
  intros Hcomplete.
  eexists. split; [apply _resample_to_4h_datetime |].
  intros b Hb. apply resample_kept_row in Hb.
  destruct Hb as (_ & Hagg & Hkeep & _).
  pose proof (members_sorted rows (ts b)) as Hsorted.
  pose proof (in_members rows (ts b)) as Hmem.
  assert (Hopen : Open b = agg_first (map Open (List.filter (in_bin (ts b)) (sort_by_ts rows))))
    by (rewrite Hagg at 1; reflexivity).
  assert (Hclose : Close b = agg_last (map Close (List.filter (in_bin (ts b)) (sort_by_ts rows))))
    by (rewrite Hagg at 1; reflexivity).
  destruct (List.filter (in_bin (ts b)) (sort_by_ts rows)) as [| m0 ms].
  { unfold row_has_nan in Hkeep. rewrite Hopen in Hkeep. discriminate Hkeep. }
  pose proof (last_in ms m0) as Hlast.
  pose proof (proj1 (Hmem m0) (or_introl eq_refl)) as [Ho Hobin].
  pose proof (proj1 (Hmem _) Hlast) as [Hc Hcbin].
  destruct (complete_row m0 (Hcomplete m0 Ho)) as (Hopen0 & _).
  exists m0, (List.last ms m0).
  repeat (split; [tauto || lia |]).
  split; [rewrite Hopen; apply agg_first_head; exact Hopen0 |].
  split.
  - rewrite Hclose. apply agg_last_last. intros x Hx.
    apply Hmem in Hx. destruct Hx as [Hx _].
    destruct (complete_row x (Hcomplete x Hx)) as (_ & _ & _ & Hcl & _).
    exact Hcl.
  - intros x Hx Hbin. apply (sorted_bounds ms m0 Hsorted).
    apply Hmem. split; assumption.
Qed.

Lemma _resample_to_4h_open_close_witness :
  exists r,
    _resample_to_4h (mkDataFrame DatetimeIndex session_bars) [] = (inr r, []) /\
    forall b, In b (df_rows r) ->
      exists o c,
        In o session_bars /\ In c session_bars /\
        ts b <= ts o /\ ts c < ts b + FOUR_HOURS /\
        Open b = Open o /\ Close b = Close c /\
        forall x, In x session_bars -> ts b <= ts x < ts b + FOUR_HOURS ->
          ts o <= ts x <= ts c.
Proof.
  apply (_resample_to_4h_open_close session_bars []).
  intros x Hx. repeat (destruct Hx as [<- | Hx]; [reflexivity |]). destruct Hx.
Defined.

(** ** No bar is lost *)

(** A bucket of complete bars is complete, unless it is empty. *)
Lemma agg_bin_complete (sorted : list Bar) (b : Z) :
  (forall x, In x sorted -> row_has_nan x = false) ->
  List.filter (in_bin b) sorted <> [] ->
  row_has_nan (agg_bin sorted b) = false.
Proof.
  intros Hcomplete Hne.
  assert (Hmem : forall x, In x (List.filter (in_bin b) sorted) ->
                           row_has_nan x = false)
    by (intros x Hx; apply filter_In in Hx; apply Hcomplete; tauto).
  unfold agg_bin.
  destruct (List.filter (in_bin b) sorted) as [| m0 ms]; [congruence |].
  destruct (complete_row m0 (Hmem m0 (or_introl eq_refl)))
    as (Ho & Hh & Hl & Hc & _).
  unfold row_has_nan. cbn [Open High Low Close Volume].
  rewrite agg_first_head by exact Ho.
  rewrite agg_last_last
    by (intros x Hx; destruct (complete_row x (Hmem x Hx)); tauto).
  destruct (complete_row _ (Hmem _ (last_in ms m0))) as (_ & _ & _ & Hcl & _).
  unfold agg_max, agg_min, agg_sum, valid. cbn [map].
  destruct (Open m0), (High m0), (Low m0), (Close (List.last ms m0));
    try congruence. reflexivity.
Qed.

(** X16: when no bar misses a field, every bar lies in the four hours of
    one returned candle, and of one only. *)
Theorem _resample_to_4h_covers (rows : list Bar) (out : list string) :
  (forall x, In x rows -> row_has_nan x = false) ->
  exists r,
    _resample_to_4h (mkDataFrame DatetimeIndex rows) out = (inr r, out) /\
    forall x, In x rows ->
      exists b,
        In b (df_rows r) /\ ts b <= ts x < ts b + FOUR_HOURS /\
        forall b', In b' (df_rows r) -> ts b' <= ts x < ts b' + FOUR_HOURS ->
          b' = b.
Proof.
  intros Hcomplete. eexists. split; [apply _resample_to_4h_datetime |].
  intros x Hx.
  destruct (resample_4H_agg_bins rows) as (lo & n & Hlo & Hbins & Hcover).
  destruct (Hcover x Hx) as (i & Hi & Hbin).
  apply in_bin_spec in Hbin.
  exists (agg_bin (sort_by_ts rows) (lo + FOUR_HOURS * Z.of_nat i)).
  split; [| split].
  - unfold dropna. cbn [df_rows]. apply filter_In. split.
    + rewrite Hbins. apply in_map_iff. exists i.
      split; [reflexivity | apply in_seq; lia].
    + rewrite agg_bin_complete; [reflexivity | |].
      * intros y Hy. apply Hcomplete, in_sort_by_ts_iff, Hy.
      * intros Hnil.
        assert (Hmem : In x (List.filter (in_bin (lo + FOUR_HOURS * Z.of_nat i))
                                         (sort_by_ts rows)))
          by (apply in_members; split; assumption).
        rewrite Hnil in Hmem. destruct Hmem.
  - exact Hbin.
  - intros b' Hb' Hbin'. apply resample_kept_row in Hb'.
    destruct Hb' as (Hgrid & Hagg & _). rewrite Hagg. f_equal.
    unfold FOUR_HOURS in *. Z.div_mod_to_equations. lia.
Qed.

Lemma _resample_to_4h_covers_witness :
  exists r,
    _resample_to_4h (mkDataFrame DatetimeIndex session_bars) [] = (inr r, []) /\
    forall x, In x session_bars ->
      exists b,
        In b (df_rows r) /\ ts b <= ts x < ts b + FOUR_HOURS /\
        forall b', In b' (df_rows r) -> ts b' <= ts x < ts b' + FOUR_HOURS ->
          b' = b.
Proof.
  apply (_resample_to_4h_covers session_bars []).
  intros x Hx. repeat (destruct Hx as [<- | Hx]; [reflexivity |]). destruct Hx.
Defined.

(** ** Volume *)

Lemma fold_left_Qplus (l : list Q) : forall a,
  (fold_left Qplus l a == a + qsum l)%Q.
Proof.
  unfold qsum. induction l as [| q l IH]; intros a; cbn [fold_left fold_right].
  - ring.
  - rewrite IH. ring.
Qed.

Lemma qsum_valid_volume (l : list Bar) :
  (qsum (valid (map Volume l)) == qsum (map volume_of l))%Q.
Proof.
  unfold qsum, valid, volume_of. induction l as [| x l IH]; [reflexivity |].
  cbn [map]. destruct (Volume x) as [v |].
  - change (v + fold_right Qplus 0 (omap id (map Volume l)) ==
            v + fold_right Qplus 0 (map volume_of l))%Q.
    unfold volume_of. rewrite IH. reflexivity.
  - change (fold_right Qplus 0 (omap id (map Volume l)) ==
            0 + fold_right Qplus 0 (map volume_of l))%Q.
    unfold volume_of. rewrite IH. ring.
Qed.

Lemma qsum_perm (l l' : list Q) : Permutation l l' -> (qsum l == qsum l')%Q.
Proof.
  unfold qsum.
  induction 1 as [| x l l' _ IH | x y l | l l' l'' _ IH1 _ IH2];
    cbn [fold_right].
  - reflexivity.
  - rewrite IH. reflexivity.
  - ring.
  - rewrite IH1. exact IH2.
Qed.

Lemma qsum_ext {A} (f g : A -> Q) (l : list A) :
  (forall i, In i l -> (f i == g i)%Q) ->
  (qsum (map f l) == qsum (map g l))%Q.
Proof.
  unfold qsum. induction l as [| i l IH]; intros Hfg; [reflexivity |].
  cbn [map fold_right]. rewrite (Hfg i (or_introl eq_refl)).
  rewrite IH by (intros j Hj; apply Hfg; right; exact Hj). reflexivity.
Qed.

Lemma qsum_add {A} (f g : A -> Q) (l : list A) :
  (qsum (map (fun i => f i + g i) l) == qsum (map f l) + qsum (map g l))%Q.
Proof.
  unfold qsum. induction l as [| i l IH]; cbn [map fold_right]; [ring |].
  rewrite IH. ring.
Qed.

Lemma qsum_zero {A} (l : list A) : (qsum (map (fun _ => 0%Q) l) == 0)%Q.
Proof.
  unfold qsum. induction l as [| i l IH]; cbn [map fold_right]; [reflexivity |].
  rewrite IH. ring.
Qed.

(** A sum to which one index only contributes. *)
Lemma qsum_single (v : Q) (i0 n : nat) : forall a,
  (a <= i0 < a + n)%nat ->
  (qsum (map (fun i => if Nat.eqb i i0 then v else 0%Q) (seq a n)) == v)%Q.
Proof.
  induction n as [| n IH]; intros a Hi0; [lia |].
  cbn [seq map]. unfold qsum. cbn [fold_right]. fold (qsum (map (fun i => if Nat.eqb i i0 then v else 0%Q) (seq (S a) n))).
  destruct (Nat.eqb_spec a i0) as [-> | Hne].
  - rewrite (qsum_ext _ (fun _ => 0%Q)), qsum_zero; [ring |].
    intros i Hi. apply in_seq in Hi.
    destruct (Nat.eqb_spec i i0); [lia | reflexivity].
  - rewrite IH by lia. ring.
Qed.

Lemma qsum_filter {A} (keep : A -> bool) (g : A -> Q) (l : list A) :
  (forall x, In x l -> keep x = false -> (g x == 0)%Q) ->
  (qsum (map g (List.filter keep l)) == qsum (map g l))%Q.
Proof.
  unfold qsum. induction l as [| x l IH]; intros Hdrop; [reflexivity |].
  cbn [List.filter map fold_right].
  assert (IH' := IH (fun y Hy => Hdrop y (or_intror Hy))).
  destruct (keep x) eqn:Hk; cbn [map fold_right].
  - rewrite IH'. reflexivity.
  - rewrite IH', (Hdrop x (or_introl eq_refl) Hk). ring.
Qed.

(** Every bar is counted in one bin and in one only. *)
Lemma qsum_bins (lo : Z) (n : nat) (l : list Bar) :
  (forall x, In x l ->
     exists i, (i < n)%nat /\ in_bin (lo + FOUR_HOURS * Z.of_nat i) x = true) ->
  (qsum (map (fun i => qsum (map volume_of
                 (List.filter (in_bin (lo + FOUR_HOURS * Z.of_nat i)) l)))
             (seq 0 n))
   == qsum (map volume_of l))%Q.
Proof.
  induction l as [| x l IH]; intros Hcover.
  - cbn [List.filter map]. apply qsum_zero.
  - destruct (Hcover x (or_introl eq_refl)) as (i0 & Hi0 & Hbin0).
    rewrite (qsum_ext _
      (fun i => (if Nat.eqb i i0 then volume_of x else 0) +
                qsum (map volume_of
                   (List.filter (in_bin (lo + FOUR_HOURS * Z.of_nat i)) l)))%Q).
    + rewrite qsum_add, qsum_single by lia.
      rewrite IH by (intros y Hy; apply Hcover; right; exact Hy).
      reflexivity.
    + intros i _. cbn [List.filter].
      destruct (Nat.eqb_spec i i0) as [-> | Hne].
      * rewrite Hbin0. reflexivity.
      * destruct (in_bin (lo + FOUR_HOURS * Z.of_nat i) x) eqn:Hbin.
        -- exfalso. apply in_bin_spec in Hbin, Hbin0. unfold FOUR_HOURS in *. lia.
        -- unfold qsum. ring.
Qed.

Lemma volume_of_agg_bin (sorted : list Bar) (b : Z) :
  (volume_of (agg_bin sorted b)
   == qsum (map volume_of (List.filter (in_bin b) sorted)))%Q.
Proof.
  unfold volume_of at 1, agg_bin, agg_sum. cbn [Volume].
  rewrite fold_left_Qplus, qsum_valid_volume. ring.
Qed.

(** X17: when no bar misses a field, [_resample_to_4h] keeps the traded
    volume: the Volume column has the same sum before and after. *)
Theorem _resample_to_4h_volume (rows : list Bar) (out : list string) :
  (forall x, In x rows -> row_has_nan x = false) ->
  exists r v w,
    _resample_to_4h (mkDataFrame DatetimeIndex rows) out = (inr r, out) /\
    agg_sum (map Volume (df_rows r)) = Some v /\
    agg_sum (map Volume rows) = Some w /\
    (v == w)%Q.
Proof.
  intros Hcomplete.
  eexists _, _, _. split; [apply _resample_to_4h_datetime |].
  split; [reflexivity |]. split; [reflexivity |].
  rewrite !fold_left_Qplus, !qsum_valid_volume, !Qplus_0_l.
  unfold dropna. cbn [df_rows].
  destruct (resample_4H_agg_bins rows) as (lo & n & _ & -> & Hcover).
  assert (Hsorted_complete : forall x, In x (sort_by_ts rows) -> row_has_nan x = false)
    by (intros x Hx; apply Hcomplete, in_sort_by_ts_iff, Hx).
  rewrite qsum_filter.
  - rewrite map_map.
    rewrite (qsum_ext _ _ _ (fun i _ => volume_of_agg_bin (sort_by_ts rows) _)).
    rewrite qsum_bins.
    + apply qsum_perm, Permutation_map, sort_by_ts_perm.
    + intros x Hx. apply Hcover, in_sort_by_ts_iff, Hx.
  - intros b Hb Hdrop. apply in_map_iff in Hb. destruct Hb as (i & <- & _).
    apply Bool.negb_false_iff in Hdrop.
    rewrite volume_of_agg_bin.
    destruct (List.filter (in_bin (lo + FOUR_HOURS * Z.of_nat i)) (sort_by_ts rows))
      as [| m0 ms] eqn:Hmembers; [reflexivity |].
    rewrite agg_bin_complete in Hdrop; [discriminate | exact Hsorted_complete |].
    rewrite Hmembers. discriminate.
Qed.

Lemma _resample_to_4h_volume_witness :
  exists r v w,
    _resample_to_4h (mkDataFrame DatetimeIndex session_bars) [] = (inr r, []) /\
    agg_sum (map Volume (df_rows r)) = Some v /\
    agg_sum (map Volume session_bars) = Some w /\
    (v == w)%Q.
Proof.
  apply (_resample_to_4h_volume session_bars []).
  intros x Hx. repeat (destruct Hx as [<- | Hx]; [reflexivity |]). destruct Hx.
Defined.

(** ** Candles resampled again *)

(** On the grid, a bin holds the candle that carries its label and no
    other. *)
Lemma members_single (l : list Bar) (x : Bar) :
  StronglySorted ts_lt l ->
  (forall y, In y l -> ts y mod FOUR_HOURS = 0) ->
  In x l ->
  List.filter (in_bin (ts x)) l = [x].
Proof.
  induction 1 as [| y l Hs IH Hy]; intros Hgrid Hx; [destruct Hx |].
  pose proof (proj1 (List.Forall_forall _ _) Hy) as Hlater.
  cbn [List.filter]. destruct Hx as [-> | Hx].
  - replace (in_bin (ts x) x) with true
      by (symmetry; apply in_bin_spec; unfold FOUR_HOURS; lia).
    f_equal. apply filter_none. intros z Hz.
    destruct (in_bin (ts x) z) eqn:Hbin; [| reflexivity].
    apply in_bin_spec in Hbin. pose proof (Hlater z Hz) as Hlt.
    pose proof (Hgrid x (or_introl eq_refl)) as Hgx.
    pose proof (Hgrid z (or_intror Hz)) as Hgz.
    unfold ts_lt, FOUR_HOURS in *. exfalso.
    Z.div_mod_to_equations. lia.
  - replace (in_bin (ts x) y) with false.
    + apply IH; [| exact Hx]. intros z Hz. apply Hgrid. right. exact Hz.
    + symmetry. destruct (in_bin (ts x) y) eqn:Hbin; [| reflexivity].
      apply in_bin_spec in Hbin. pose proof (Hlater x Hx) as Hlt.
      unfold ts_lt in Hlt. lia.
Qed.

Lemma Qplus_0_l_eq (v : Q) : (0 + v)%Q = v.
Proof.
  destruct v as [n d]. unfold Qplus. cbn. rewrite Z.mul_1_r. reflexivity.
Qed.

Lemma agg_bin_single (l : list Bar) (x : Bar) :
  List.filter (in_bin (ts x)) l = [x] ->
  row_has_nan x = false ->
  agg_bin l (ts x) = x.
Proof.
  intros Hmembers Hcomplete. unfold agg_bin. rewrite Hmembers.
  destruct x as [t [o |] [h |] [lw |] [c |] [v |]]; try discriminate Hcomplete.
  cbn -[Qplus agg_sum]. unfold agg_sum, valid. cbn [omap id fold_left option_bind list_omap].
  change (fold_left Qplus [v] 0%Q) with (0 + v)%Q.
  rewrite Qplus_0_l_eq. reflexivity.
Qed.

Lemma resample_fixed (rows : list Bar) :
  StronglySorted ts_lt rows ->
  (forall x, In x rows -> ts x mod FOUR_HOURS = 0) ->
  (forall x, In x rows -> row_has_nan x = false) ->
  dropna (mkDataFrame DatetimeIndex (resample_4H_agg rows)) =
  mkDataFrame DatetimeIndex rows.
Proof.
  intros Hsorted Hgrid Hcomplete.
  pose proof (sort_by_ts_sorted_id rows (sorted_lt_le rows Hsorted)) as Hid.
  assert (Hself : forall x, In x rows -> agg_bin rows (ts x) = x).
  { intros x Hx. apply agg_bin_single; [| apply Hcomplete, Hx].
    apply members_single; assumption. }
  assert (Hrows : df_rows (dropna (mkDataFrame DatetimeIndex (resample_4H_agg rows)))
                  = rows).
  { apply sorted_lt_eq; [apply resampled_sorted | exact Hsorted |].
    intros b. split.
    - intros Hb. apply resample_kept_row in Hb.
      destruct Hb as (Hgb & Hagg & _ & x & Hx & Hbin).
      assert (Hts : ts b = ts x).
      { pose proof (Hgrid x Hx) as Hgx. unfold FOUR_HOURS in *.
        Z.div_mod_to_equations. lia. }
      rewrite Hagg, Hid, Hts, (Hself x Hx). exact Hx.
    - intros Hb. unfold dropna. cbn [df_rows]. apply filter_In.
      split; [| rewrite (Hcomplete b Hb); reflexivity].
      destruct (resample_4H_agg_bins rows) as (lo & n & Hlo & -> & Hcover).
      destruct (Hcover b Hb) as (i & Hi & Hbin).
      apply in_map_iff. exists i. split; [| apply in_seq; lia].
      assert (Hts : lo + FOUR_HOURS * Z.of_nat i = ts b).
      { apply in_bin_spec in Hbin. pose proof (Hgrid b Hb) as Hgb.
        unfold FOUR_HOURS in *. Z.div_mod_to_equations. lia. }
      rewrite Hts, Hid. apply Hself, Hb. }
  unfold dropna in *. cbn [df_rows df_index] in *. rewrite Hrows. reflexivity.
Qed.

(** X18: a frame of complete candles whose labels lie on the 4-hour grid in
    strictly increasing order is returned as it is, whatever the gaps
    between its candles. *)
Theorem _resample_to_4h_fixed (rows : list Bar) (out : list string) :
  StronglySorted ts_lt rows ->
  (forall x, In x rows -> ts x mod FOUR_HOURS = 0 /\ row_has_nan x = false) ->
  _resample_to_4h (mkDataFrame DatetimeIndex rows) out =
    (inr (mkDataFrame DatetimeIndex rows), out).
Proof.
  intros Hsorted Hrows. rewrite _resample_to_4h_datetime.
  rewrite resample_fixed; [reflexivity | exact Hsorted | |];
    intros x Hx; apply Hrows, Hx.
Qed.

Lemma _resample_to_4h_fixed_witness :
  _resample_to_4h (mkDataFrame DatetimeIndex two_candles) [] =
    (inr (mkDataFrame DatetimeIndex two_candles), []).
Proof.
  apply (_resample_to_4h_fixed two_candles []).
  - repeat constructor.
  - intros x Hx.
    repeat (destruct Hx as [<- | Hx]; [split; reflexivity |]). destruct Hx.
Defined.

(** X19: [_resample_to_4h] is idempotent on frames indexed by time: applied
    to its own result it returns that result. *)
Theorem _resample_to_4h_idempotent (rows : list Bar) (out : list string) :
  exists r,
    _resample_to_4h (mkDataFrame DatetimeIndex rows) out = (inr r, out) /\
    _resample_to_4h r out = (inr r, out).
Proof.
  eexists. split; [apply _resample_to_4h_datetime |].
  set (r := dropna (mkDataFrame DatetimeIndex (resample_4H_agg rows))).
  change r with (mkDataFrame DatetimeIndex (df_rows r)) at 1.
  rewrite _resample_to_4h_datetime, resample_fixed; [reflexivity | | |].
  - apply resampled_sorted.
  - intros x Hx. apply resample_kept_row in Hx. tauto.
  - intros x Hx. apply resample_kept_row in Hx. tauto.
Qed.

(** ** The 4-hour series, end to end *)

Lemma dropna_idem (df : DataFrame) : dropna (dropna df) = dropna df.
Proof.
  unfold dropna. cbn [df_index df_rows]. f_equal.
  induction (df_rows df) as [| x l IH]; [reflexivity |].
  cbn [List.filter]. destruct (row_has_nan x) eqn:Hx; cbn [negb]; [exact IH |].
  cbn [List.filter]. rewrite Hx. cbn [negb]. f_equal. exact IH.
Qed.

(** X20: for the interval 4h and hourly bars indexed by time,
    [get_stock_data] returns exactly the frame that [_resample_to_4h]
    returns: the second [dropna] removes nothing. *)
Theorem get_stock_data_4h_candles (yf : Provider) (symbol period : string)
    (out : list string) (rows : list Bar) :
  history yf symbol period "1h" = inr (mkDataFrame DatetimeIndex rows) ->
  rows <> [] ->
  exists r,
    _resample_to_4h (mkDataFrame DatetimeIndex rows) out = (inr r, out) /\
    get_stock_data yf symbol period "4h" out = (inr (Some r), out).
Proof.
  intros Hdf Hrows.
  eexists. split; [apply _resample_to_4h_datetime |].
  unfold get_stock_data. rewrite yf_interval_4h. run_py. rewrite Hdf.
  destruct rows as [| x rows]; [congruence |].
  cbn [df_empty df_rows]. rewrite _resample_to_4h_datetime.
  rewrite dropna_idem. reflexivity.
Qed.

Lemma get_stock_data_4h_candles_witness :
  exists r,
    _resample_to_4h
      (mkDataFrame DatetimeIndex
         [mkBar 1704240000 (Some 100%Q) (Some 110%Q) (Some 95%Q)
                (Some 105%Q) (Some 5000%Q)]) [] = (inr r, []) /\
    get_stock_data yf_one_bar "TCS.NS" "60d" "4h" [] = (inr (Some r), []).
Proof.
  apply (get_stock_data_4h_candles yf_one_bar "TCS.NS" "60d" []).
  - reflexivity.
  - discriminate.
Defined.
